(** * GoodreadsScraper: the path matcher, the text normalizer and the batch merge

    A shallow embedding of
    - [visit_path] and its helpers (src/GoodreadsScraper/items.py),
    - [deduplicate_text] (src/GoodreadsScraper/items.py),
    - [combine_and_dedupe] (src/combine_files.py),
    followed by the properties proved about them.

    Python strings are modelled as [string]; a decoded JSON document is a
    value of [json]; a dict is an association list in insertion order. *)

From Stdlib Require Import Bool Arith Lia List ZArith.
From Stdlib Require Import Strings.Ascii Strings.String.
From Stdlib Require Import Floats.SpecFloat.
Import ListNotations.

Set Warnings "-register-all".

Open Scope string_scope.
Open Scope list_scope.

(** ** Python string operations used by the source *)

Module PyStr.

(** [s[:n]] *)
Fixpoint take (n : nat) (s : string) : string :=
  match n, s with
  | S n', String c s' => String c (take n' s')
  | _, _ => EmptyString
  end.

(** [s[n:]] *)
Fixpoint drop (n : nat) (s : string) : string :=
  match n, s with
  | S n', String _ s' => drop n' s'
  | _, _ => s
  end.

(** [s.startswith(p)] *)
Fixpoint startswith (s p : string) {struct p} : bool :=
  match p, s with
  | EmptyString, _ => true
  | String a p', String b s' => Ascii.eqb a b && startswith s' p'
  | String _ _, EmptyString => false
  end.

(** [s.endswith(p)] *)
Definition endswith (s p : string) : bool :=
  Nat.leb (length p) (length s) && String.eqb (drop (length s - length p) s) p.

(** [s[:-n]] *)
Definition drop_last (n : nat) (s : string) : string :=
  take (length s - n) s.

(** [s[1:-1]] *)
Definition strip_brackets (s : string) : string :=
  take (length s - 2) (drop 1 s).

(** [s.split(sep)] for a one-character separator: never the empty list. *)
Fixpoint split (sep : ascii) (s : string) : list string :=
  match s with
  | EmptyString => [EmptyString]
  | String c s' =>
      if Ascii.eqb c sep then EmptyString :: split sep s'
      else match split sep s' with
           | [] => [String c EmptyString]
           | w :: ws => String c w :: ws
           end
  end.

(** Number of occurrences of a character. *)
Fixpoint count (c : ascii) (s : string) : nat :=
  match s with
  | EmptyString => 0
  | String a s' => (if Ascii.eqb a c then 1 else 0) + count c s'
  end.

(** The characters of a string, each as a one-character string
    (what iterating over a [str] produces). *)
Fixpoint chars (s : string) : list string :=
  match s with
  | EmptyString => []
  | String c s' => String c EmptyString :: chars s'
  end.

(** [c * n] *)
Fixpoint replicate (n : nat) (c : ascii) : string :=
  match n with
  | O => EmptyString
  | S n' => String c (replicate n' c)
  end.

End PyStr.

(** ** JSON values, as [json.loads] produces them *)

Inductive json : Type :=
| JNull
| JBool (b : bool)
| JInt (n : Z)
| JFloat (f : spec_float)
| JStr (s : string)
| JList (l : list json)
| JDict (d : list (string * json)).

Definition dict := list (string * json).

(** Python truthiness: [not data] is [negb (truthy data)]. *)
Definition truthy (v : json) : bool :=
  match v with
  | JNull => false
  | JBool b => b
  | JInt n => negb (Z.eqb n 0)
  | JFloat (S754_zero _) => false
  | JFloat _ => true
  | JStr s => negb (String.eqb s "")
  | JList l => match l with [] => false | _ => true end
  | JDict d => match d with [] => false | _ => true end
  end.

Definition is_dict (v : json) : bool :=
  match v with JDict _ => true | _ => false end.

(** [d[k]] / [k in d]: the entry stored under [k]. *)
Fixpoint dict_lookup (d : dict) (k : string) : option json :=
  match d with
  | [] => None
  | (k', v) :: d' => if String.eqb k' k then Some v else dict_lookup d' k
  end.

(** [d.get(k, default)] *)
Definition dict_get (d : dict) (k : string) (default : json) : json :=
  match dict_lookup d k with
  | Some v => v
  | None => default
  end.

(** [d.keys()], in insertion order. *)
Definition dict_keys (d : dict) : list string := map fst d.

(** [d[k] = v]: an existing key keeps its position, a new one goes last. *)
Fixpoint dict_set (d : dict) (k : string) (v : json) : dict :=
  match d with
  | [] => [(k, v)]
  | (k', v') :: d' =>
      if String.eqb k' k then (k', v) :: d' else (k', v') :: dict_set d' k v
  end.

(** ** Generators: the values yielded, then how the generator ended *)

Inductive exn : Type :=
| AttributeError   (* [.get] / [.keys] on a value that is not a dict *)
| TypeError        (* iterating a value that is not iterable *)
| KeyError.        (* [d[k]] with [k] absent *)

Inductive outcome : Type :=
| Returned
| Raised (e : exn)
| DepthExceeded.   (* the call nesting ran past the allowed depth *)

Definition gen := (list json * outcome)%type.

Definition yields (g : gen) : list json := fst g.
Definition ending (g : gen) : outcome := snd g.

Definition gen_nothing : gen := ([], Returned).
Definition gen_yield (v : json) : gen := ([v], Returned).
Definition gen_raise (e : exn) : gen := ([], Raised e).

(** [for x in xs: yield from f(x)] *)
Fixpoint yield_from_each {A : Type} (f : A -> gen) (xs : list A) : gen :=
  match xs with
  | [] => gen_nothing
  | x :: rest =>
      match f x with
      | (ys, Returned) =>
          let (zs, o) := yield_from_each f rest in (ys ++ zs, o)
      | (ys, o) => (ys, o)
      end
  end.

(** What [for value in values] iterates over; [None] is a [TypeError]. *)
Definition py_iter (values : json) : option (list json) :=
  match values with
  | JList l => Some l
  | JStr s => Some (map JStr (PyStr.chars s))
  | JDict d => Some (map JStr (dict_keys d))
  | JNull | JBool _ | JInt _ | JFloat _ => None
  end.

(** ** The path language *)

(** Lines 49-53: the text before the first dot, and the text after it
    ([None] when the key has no dot). *)
Fixpoint split_key (key : string) : string * option string :=
  match key with
  | EmptyString => (EmptyString, None)
  | String c k =>
      if Ascii.eqb c "."%char then (EmptyString, Some k)
      else let (subkey, remaining_key) := split_key k in
           (String c subkey, remaining_key)
  end.

Inductive segment : Type :=
| WildcardKey (subkey_prefix : string)
| ArrayKey (name : string)
| MultiKeyLeaf (subkeys : list string)
| Key (name : string).

(** The tests of lines 57, 70 and 84, in the order the source makes them. *)
Definition classify (subkey : string) : segment :=
  if PyStr.endswith subkey "*" then WildcardKey (PyStr.drop_last 1 subkey)
  else if PyStr.endswith subkey "[]" then ArrayKey (PyStr.drop_last 2 subkey)
  else if PyStr.startswith subkey "[" && PyStr.endswith subkey "]"
       then MultiKeyLeaf (PyStr.split ","%char (PyStr.strip_brackets subkey))
  else Key subkey.

(** Line 88: [value[sk] = data.get(sk, None)]. *)
Definition project_step (data value : dict) (sk : string) : dict :=
  dict_set value sk (dict_get data sk JNull).

(** Lines 86-88: the composite built by a multi-key leaf. *)
Definition project (data : dict) (subkeys : list string) : dict :=
  fold_left (project_step data) subkeys [].

(** Dispatch on the head segment, with [visit] standing for the recursive
    call on the remaining key. *)
Definition visit_segment (visit : json -> gen) (data : json) (seg : segment)
  : gen :=
  match seg with
  | WildcardKey subkey_prefix =>
      match data with
      | JDict d =>
          let matching_subkeys :=
            filter (fun k => PyStr.startswith k subkey_prefix) (dict_keys d) in
          yield_from_each
            (fun sk => match dict_lookup d sk with
                       | Some v => visit v
                       | None => gen_raise KeyError
                       end)
            matching_subkeys
      | _ => gen_raise AttributeError
      end
  | ArrayKey name =>
      match data with
      | JDict d =>
          match py_iter (dict_get d name (JList [])) with
          | Some values => yield_from_each visit values
          | None => gen_raise TypeError
          end
      | _ => gen_raise AttributeError
      end
  | MultiKeyLeaf subkeys =>
      match data with
      | JDict d => gen_yield (JDict (project d subkeys))
      | _ => gen_raise AttributeError
      end
  | Key name =>
      match data with
      | JDict d => visit (dict_get d name JNull)
      | _ => gen_raise AttributeError
      end
  end.

(** [visit_path(data, key, original_key)], run with at most [depth] nested
    calls.  [original_key] only feeds the debug trace and is left out. *)
Fixpoint visit_path_depth (depth : nat) (data : json) (key : option string)
  : gen :=
  match depth with
  | O => ([], DepthExceeded)
  | S depth' =>
      if negb (truthy data) then gen_nothing
      else
        match key with
        | None => gen_yield data
        | Some k =>
            if String.eqb k "" then gen_yield data
            else
              let (subkey, remaining_key) := split_key k in
              visit_segment
                (fun v => visit_path_depth depth' v remaining_key)
                data (classify subkey)
        end
  end.

(** Number of segments of a key: one more than its number of dots. *)
Definition segments (key : option string) : nat :=
  match key with
  | None => 0
  | Some k => if String.eqb k "" then 0 else S (PyStr.count "."%char k)
  end.

(** The matcher: [visit_path_depth] with one frame per segment and one for
    the final yield. *)
Definition visit_path (data : json) (key : option string) : gen :=
  visit_path_depth (S (segments key)) data key.

(** [json_field_extractor_v2(key)] applied to an already decoded document. *)
Definition extract_field (key : string) (data : json) : gen :=
  visit_path data (Some key).

(** A key whose head segment is [seg] and whose tail is [remaining_key]. *)
Definition key_splits (k : string) (seg : segment)
           (remaining_key : option string) : Prop :=
  String.eqb k "" = false /\
  exists subkey, split_key k = (subkey, remaining_key) /\ classify subkey = seg.

(** The head segments that look a key up in the current value and go on
    with what they find. *)
Definition is_key_or_wildcard (seg : segment) : bool :=
  match seg with
  | Key _ | WildcardKey _ => true
  | ArrayKey _ | MultiKeyLeaf _ => false
  end.

(** ** The text normalizer *)

(** Lines 137-143: the test made at one split point. *)
Definition signature_test (text : string) (split_point : nat) : bool :=
  let first_part := PyStr.take split_point text in
  let second_part := PyStr.drop split_point text in
  let signature_len := Nat.min 100 (length first_part) in
  Nat.ltb 50 signature_len
  && PyStr.startswith second_part (PyStr.take signature_len first_part).

(** [range(lo, hi)] *)
Definition range (lo hi : nat) : list nat := seq lo (hi - lo).

(** The first split point of the scan range that passes the test. *)
Definition first_split (text : string) : option nat :=
  find (signature_test text)
       (range (length text / 3) ((length text * 2) / 3)).

Definition deduplicate_text (text : string) : string :=
  if String.eqb text "" || Nat.ltb (length text) 100 then text
  else match first_split text with
       | Some split_point => PyStr.take split_point text
       | None => text
       end.

(** ** The batch merge *)

(** [c.isspace()] on code points below 256. *)
Definition is_space (c : ascii) : bool :=
  let n := nat_of_ascii c in
  (Nat.leb 9 n && Nat.leb n 13) || (Nat.leb 28 n && Nat.leb n 32)
  || Nat.eqb n 133 || Nat.eqb n 160.

Fixpoint lstrip (s : string) : string :=
  match s with
  | EmptyString => EmptyString
  | String c s' => if is_space c then lstrip s' else s
  end.

Fixpoint rstrip (s : string) : string :=
  match s with
  | EmptyString => EmptyString
  | String c s' =>
      match rstrip s' with
      | EmptyString => if is_space c then EmptyString else String c EmptyString
      | r => String c r
      end
  end.

(** [line.strip()] *)
Definition strip (s : string) : string := rstrip (lstrip s).

(** Numbers as Python compares them: [m * 2^e], an infinity, or a NaN. *)
Inductive number : Type :=
| NFinite (m e : Z)
| NInf (negative : bool)
| NNan.

Definition as_number (v : json) : option number :=
  match v with
  | JBool b => Some (NFinite (if b then 1 else 0) 0)
  | JInt n => Some (NFinite n 0)
  | JFloat (S754_zero _) => Some (NFinite 0 0)
  | JFloat (S754_infinity s) => Some (NInf s)
  | JFloat S754_nan => Some NNan
  | JFloat (S754_finite s m e) =>
      Some (NFinite (if s then Z.neg m else Z.pos m) e)
  | _ => None
  end.

Definition number_eqb (a b : number) : bool :=
  match a, b with
  | NFinite m1 e1, NFinite m2 e2 =>
      let e := Z.min e1 e2 in
      Z.eqb (m1 * 2 ^ (e1 - e)) (m2 * 2 ^ (e2 - e))
  | NInf s1, NInf s2 => Bool.eqb s1 s2
  | _, _ => false
  end.

(** [a == b] on the values a set can hold. *)
Definition py_eqb (a b : json) : bool :=
  match as_number a, as_number b with
  | Some x, Some y => number_eqb x y
  | None, None =>
      match a, b with
      | JNull, JNull => true
      | JStr s, JStr t => String.eqb s t
      | _, _ => false
      end
  | _, _ => false
  end.

(** Lists and dicts cannot be hashed. *)
Definition hashable (v : json) : bool :=
  match v with
  | JList _ | JDict _ => false
  | _ => true
  end.

(** [url in seen_urls] *)
Definition set_mem (url : json) (seen_urls : list json) : bool :=
  existsb (py_eqb url) seen_urls.

Inductive result (A : Type) : Type :=
| Ok (a : A)
| Error (e : exn).
Arguments Ok {A} a.
Arguments Error {A} e.

Record merge_state : Type := mkState {
  seen_urls : list json;
  unique_items : list json;
  diagnostics : list (string * string)   (* file name, offending line *)
}.

Definition initial_state : merge_state := mkState [] [] [].

Section Merge.

(** [json.loads]; [None] is a [json.JSONDecodeError]. *)
Variable json_loads : string -> option json.

(** Lines 18-27: the body of the loop over the lines of one file. *)
Definition process_line (filename : string) (st : merge_state) (line : string)
  : result merge_state :=
  match json_loads (strip line) with
  | None =>
      Ok (mkState (seen_urls st) (unique_items st)
                  (diagnostics st ++ [(filename, line)]))
  | Some item =>
      match item with
      | JDict d =>
          let url := dict_get d "url" JNull in
          if truthy url then
            if hashable url then
              if negb (set_mem url (seen_urls st)) then
                Ok (mkState (seen_urls st ++ [url])
                            (unique_items st ++ [item])
                            (diagnostics st))
              else Ok st
            else Error TypeError
          else Ok st
      | _ => Error AttributeError
      end
  end.

(** Line 17: [for line in f]. *)
Fixpoint process_lines (filename : string) (st : merge_state)
         (lines : list string) : result merge_state :=
  match lines with
  | [] => Ok st
  | line :: rest =>
      match process_line filename st line with
      | Ok st' => process_lines filename st' rest
      | Error e => Error e
      end
  end.

(** Line 14: [for filename in files], each file given with its lines. *)
Fixpoint process_files (st : merge_state)
         (files : list (string * list string)) : result merge_state :=
  match files with
  | [] => Ok st
  | (filename, lines) :: rest =>
      match process_lines filename st lines with
      | Ok st' => process_files st' rest
      | Error e => Error e
      end
  end.

(** [combine_and_dedupe], on the sorted files the pattern matched: the
    final state holds the items written out. *)
Definition combine_and_dedupe (files : list (string * list string))
  : result merge_state :=
  process_files initial_state files.

(** A line [json.loads] rejects. *)
Definition undecodable (line : string) : bool :=
  match json_loads (strip line) with
  | None => true
  | Some _ => false
  end.

(** A line that decodes to an object whose [url] is falsy or hashable. *)
Definition is_record (line : string) : bool :=
  match json_loads (strip line) with
  | Some (JDict d) =>
      let url := dict_get d "url" JNull in
      negb (truthy url) || hashable url
  | _ => false
  end.

(** The files with the undecodable lines taken out. *)
Definition decodable_only (files : list (string * list string))
  : list (string * list string) :=
  map (fun f => (fst f, filter (fun l => negb (undecodable l)) (snd f))) files.

(** The undecodable lines, each with the name of its file, in reading order. *)
Definition undecodable_lines (files : list (string * list string))
  : list (string * string) :=
  flat_map (fun f => map (fun l => (fst f, l)) (filter undecodable (snd f)))
           files.

(** The lines the loop gets through: those that do not decode and those
    that are records. *)
Definition lines_ok (lines : list string) : Prop :=
  forall l, In l lines -> undecodable l = true \/ is_record l = true.

Definition files_ok (files : list (string * list string)) : Prop :=
  forall f l, In f files -> In l (snd f) ->
              undecodable l = true \/ is_record l = true.

End Merge.

(** Two states that agree on what has been seen and kept. *)
Definition same_items (st st' : merge_state) : Prop :=
  seen_urls st = seen_urls st' /\ unique_items st = unique_items st'.

(** ** Sample data *)

(** The mapping [{"a": 1, "b": 2, "c": null}]. *)
Definition abc_mapping : dict :=
  [("a", JInt 1); ("b", JInt 2); ("c", JNull)].

(** The mapping [{"items": [{"y": 1}, {"y": 0}, {"y": 3}]}]. *)
Definition items_mapping : dict :=
  [("items", JList [JDict [("y", JInt 1)];
                    JDict [("y", JInt 0)];
                    JDict [("y", JInt 3)]])].

(** Sixty copies of one character. *)
Definition sixty_a : string := PyStr.replicate 60 "a"%char.

(** A hundred [a], a hundred [b], a hundred [a]. *)
Definition aba_text : string :=
  (PyStr.replicate 100 "a"%char ++ PyStr.replicate 100 "b"%char
   ++ PyStr.replicate 100 "a"%char)%string.

(** A double quote, and the lines [{"url":1}], [7] and [{"url":2}], each
    with its end of line. *)
Definition dq : string := String "034"%char EmptyString.
Definition nl : string := String "010"%char EmptyString.
Definition line_url (n : string) : string :=
  ("{" ++ dq ++ "url" ++ dq ++ ":" ++ n ++ "}")%string.

(** A decoder that agrees with [json.loads] on the lines of [sample_file]
    and rejects every other text. *)
Definition sample_loads (text : string) : option json :=
  if String.eqb text (line_url "1") then Some (JDict [("url", JInt 1)])
  else if String.eqb text (line_url "2") then Some (JDict [("url", JInt 2)])
  else if String.eqb text "7" then Some (JInt 7)
  else None.

Definition sample_file : string * list string :=
  ("book_batch1.jl",
   [(line_url "1" ++ nl)%string; ("7" ++ nl)%string; (line_url "2" ++ nl)%string]).

Definition sample_file_bad_text : string * list string :=
  ("book_batch1.jl",
   [(line_url "1" ++ nl)%string; ("{oops" ++ nl)%string;
    (line_url "2" ++ nl)%string]).

(** ** The path syntax, written out *)

(** [sep.join(pieces)] *)
Fixpoint str_join (sep : string) (pieces : list string) : string :=
  match pieces with
  | [] => EmptyString
  | p :: rest =>
      match rest with
      | [] => p
      | _ => (p ++ sep ++ str_join sep rest)%string
      end
  end.

(** The token of the path syntax that stands for a segment. *)
Definition segment_token (seg : segment) : string :=
  match seg with
  | WildcardKey subkey_prefix => (subkey_prefix ++ "*")%string
  | ArrayKey name => (name ++ "[]")%string
  | MultiKeyLeaf subkeys => ("[" ++ str_join "," subkeys ++ "]")%string
  | Key name => name
  end.

(** The segments a token can stand for: a plain key does not end in a star
    or a closing bracket; a multi-key leaf has at least one name, none with
    a comma, and its names joined are not empty and do not end in an
    opening bracket. *)
Definition well_formed (seg : segment) : bool :=
  match seg with
  | WildcardKey _ | ArrayKey _ => true
  | MultiKeyLeaf subkeys =>
      match subkeys with [] => false | _ => true end
      && forallb (fun n => Nat.eqb (PyStr.count ","%char n) 0) subkeys
      && negb (String.eqb (str_join "," subkeys) "")
      && negb (PyStr.endswith (str_join "," subkeys) "[")
  | Key name => negb (PyStr.endswith name "*") && negb (PyStr.endswith name "]")
  end.

(** The keys made of plain keys only, possibly closed by a multi-key
    leaf: no wildcard and no array segment. *)
Inductive single_valued : option string -> Prop :=
| sv_none : single_valued None
| sv_empty : single_valued (Some EmptyString)
| sv_key (k name : string) (remaining_key : option string) :
    key_splits k (Key name) remaining_key ->
    single_valued remaining_key ->
    single_valued (Some k)
| sv_leaf (k : string) (subkeys : list string) (remaining_key : option string) :
    key_splits k (MultiKeyLeaf subkeys) remaining_key ->
    single_valued (Some k).

(** The endings a run of the matcher can have. *)
Definition matcher_ending (o : outcome) : Prop :=
  o = Returned \/ o = Raised AttributeError \/ o = Raised TypeError.

(** ** The line helpers of items.py *)

(** [split_by_newline]: [txt.split("\n")]. *)
Definition split_by_newline (txt : string) : list string :=
  PyStr.split "010"%char txt.

(** [filter_empty]: [[v.strip() for v in vals if v.strip()]]. *)
Definition filter_empty (vals : list string) : list string :=
  map strip (filter (fun v => negb (String.eqb (strip v) "")) vals).

(** A text that does not begin with white space. *)
Definition starts_clean (s : string) : bool :=
  match s with
  | EmptyString => true
  | String c _ => negb (is_space c)
  end.

(** ** Contributors with their roles *)

Definition bind {A B : Type} (r : result A) (k : A -> result B) : result B :=
  match r with
  | Ok a => k a
  | Error e => Error e
  end.

Notation "x <- c ;; k" := (bind c (fun x => k))
  (at level 61, c at next level, right associativity).

(** [v.get(k, default)] on a value that may not be a dict. *)
Definition py_get (v : json) (k : string) (default : json) : result json :=
  match v with
  | JDict d => Ok (dict_get d k default)
  | _ => Error AttributeError
  end.

(** [k in d] for a dict with string keys: a list or a dict cannot be
    hashed, and nothing but a string equals a key. *)
Definition py_in_dict (k : json) (d : dict) : result bool :=
  match k with
  | JStr s => Ok (match dict_lookup d s with Some _ => true | None => false end)
  | JList _ | JDict _ => Error TypeError
  | _ => Ok false
  end.

(** [d[k]] for a key that has passed [k in d]. *)
Definition py_getitem (d : dict) (k : json) : result json :=
  match k with
  | JStr s => match dict_lookup d s with
              | Some v => Ok v
              | None => Error KeyError
              end
  | _ => Error KeyError
  end.

(** Lines 163-170 and 175-182: what one contributor edge adds. *)
Definition add_contributor (apollo_state : dict) (edge : json)
           (contributors : list json) : result (list json) :=
  node <- py_get edge "node" (JDict []) ;;
  contributor_ref <- py_get node "__ref" JNull ;;
  if truthy contributor_ref then
    present <- py_in_dict contributor_ref apollo_state ;;
    if (present : bool) then
      contributor <- py_getitem apollo_state contributor_ref ;;
      contributor_name <- py_get contributor "name" JNull ;;
      if truthy contributor_name then
        role <- py_get edge "role" (JStr "Unknown") ;;
        Ok (contributors ++
            [JDict [("name", contributor_name); ("role", role)]])
      else Ok contributors
    else Ok contributors
  else Ok contributors.

(** Line 174: [for edge in secondary]. *)
Fixpoint add_contributors (apollo_state : dict) (edges : list json)
         (contributors : list json) : result (list json) :=
  match edges with
  | [] => Ok contributors
  | edge :: rest =>
      contributors' <- add_contributor apollo_state edge contributors ;;
      add_contributors apollo_state rest contributors'
  end.

(** Lines 158-182: the body of the loop over the books. *)
Definition book_contributors (apollo_state : dict) (book_key : string)
           (contributors : list json) : result (list json) :=
  book <- py_getitem apollo_state (JStr book_key) ;;
  primary <- py_get book "primaryContributorEdge" JNull ;;
  contributors' <- (if truthy primary
                    then add_contributor apollo_state primary contributors
                    else Ok contributors) ;;
  secondary <- py_get book "secondaryContributorEdges" (JList []) ;;
  match py_iter secondary with
  | Some edges => add_contributors apollo_state edges contributors'
  | None => Error TypeError
  end.

(** Line 157: [for book_key in ...]. *)
Fixpoint books_contributors (apollo_state : dict) (book_keys : list string)
         (contributors : list json) : result (list json) :=
  match book_keys with
  | [] => Ok contributors
  | book_key :: rest =>
      contributors' <- book_contributors apollo_state book_key contributors ;;
      books_contributors apollo_state rest contributors'
  end.

(** Line 156: the chain of [.get] down to the state map. *)
Definition apollo_state_of (data : json) : result json :=
  props <- py_get data "props" (JDict []) ;;
  page_props <- py_get props "pageProps" (JDict []) ;;
  py_get page_props "apolloState" (JDict []).

(** [extract_contributors_with_roles(key)] applied to an already decoded
    document; [key] is not used by the source. *)
Definition extract_contributors_with_roles (data : json)
  : result (list json) :=
  apollo_state <- apollo_state_of data ;;
  match apollo_state with
  | JDict d =>
      contributors <-
        books_contributors d
          (filter (fun k => PyStr.startswith k "Book:") (dict_keys d)) [] ;;
      Ok (match contributors with
          | [] => []
          | _ => [JList contributors]
          end)
  | _ => Error AttributeError
  end.

(** A record [{"name": ..., "role": ...}] with a truthy name. *)
Definition is_contributor (c : json) : Prop :=
  exists name role : json,
    c = JDict [("name", name); ("role", role)] /\ truthy name = true.

(** ** What the batch merge reads *)

(** [item.get('url')] of a kept item. *)
Definition url_of (item : json) : json :=
  match item with
  | JDict d => dict_get d "url" JNull
  | _ => JNull
  end.

(** The first list, read in order, is found inside the second. *)
Inductive subsequence {A : Type} : list A -> list A -> Prop :=
| sub_nil : forall l, subsequence [] l
| sub_keep : forall x l1 l2, subsequence l1 l2 -> subsequence (x :: l1) (x :: l2)
| sub_skip : forall x l1 l2, subsequence l1 l2 -> subsequence l1 (x :: l2).

(** No url of the list equals, as Python compares, one that comes before
    it. *)
Definition no_repeat (urls : list json) : Prop :=
  forall (before : list json) (u : json) (after : list json),
    urls = before ++ u :: after -> set_mem u before = false.

(** A kept item: a mapping whose url is truthy and hashable. *)
Definition kept_item (item : json) : Prop :=
  is_dict item = true /\
  truthy (url_of item) = true /\
  hashable (url_of item) = true.

(** The invariant of the loop: the urls seen are those of the items kept,
    every item kept is a mapping with a truthy hashable url, and no url
    seen repeats an earlier one. *)
Definition merge_invariant (st : merge_state) : Prop :=
  seen_urls st = map url_of (unique_items st) /\
  Forall kept_item (unique_items st) /\
  no_repeat (seen_urls st).

(** A line is seen in a state when its url, or one equal to it, is among
    the urls seen. *)
Definition url_seen (url : json) (st : merge_state) : Prop :=
  exists u, In u (seen_urls st) /\ (u = url \/ py_eqb url u = true).

(** Whether two runs of the merge end alike: the same error, or states
    with the same urls seen and the same items kept. *)
Definition same_outcome (r r' : result merge_state) : Prop :=
  match r, r' with
  | Ok st, Ok st' => same_items st st'
  | Error e, Error e' => e = e'
  | _, _ => False
  end.

(** The lines of all the files, in reading order. *)
Definition all_lines (files : list (string * list string)) : list string :=
  flat_map snd files.

Section MergeInput.

Variable json_loads : string -> option json.

(** The values the lines decode to, in reading order. *)
Definition decoded_items (lines : list string) : list json :=
  flat_map (fun l => match json_loads (strip l) with
                     | Some v => [v]
                     | None => []
                     end) lines.

End MergeInput.

(** ** More sample data *)

(** A state map with one book, its author and its translator. *)
Definition sample_apollo : dict :=
  [("Book:1",
    JDict [("primaryContributorEdge",
            JDict [("node", JDict [("__ref", JStr "Contributor:7")]);
                   ("role", JStr "Author")]);
           ("secondaryContributorEdges",
            JList [JDict [("node", JDict [("__ref", JStr "Contributor:8")])];
                   JDict [("node", JDict [("__ref", JStr "Contributor:9")]);
                          ("role", JStr "Editor")]])]);
   ("Contributor:7", JDict [("name", JStr "Frank Herbert")]);
   ("Contributor:8", JDict [("name", JStr "Brian Herbert")])].

Definition sample_document : json :=
  JDict [("props", JDict [("pageProps",
                            JDict [("apolloState", JDict sample_apollo)])])].

(** * Properties *)

(** ** Strings *)

Module PyStrFacts.
Import PyStr.

Lemma eqb_empty_length (s : string) :
  String.eqb s "" = true <-> length s = 0.
Proof.
  destruct s; simpl; split; intro H; try reflexivity; discriminate.
Qed.

Lemma take_length (n : nat) (s : string) :
  length (take n s) = Nat.min n (length s).
Proof.
  revert s; induction n as [|n IH]; intros [|c s]; simpl; auto.
Qed.

Lemma drop_length (n : nat) (s : string) :
  length (drop n s) = length s - n.
Proof.
  revert s; induction n as [|n IH]; intros [|c s]; simpl; auto.
Qed.

Lemma take_all (n : nat) (s : string) :
  length s <= n -> take n s = s.
Proof.
  revert s; induction n as [|n IH]; intros [|c s]; simpl; intro H;
    try reflexivity; try lia.
  f_equal; apply IH; lia.
Qed.

Lemma take_take (n m : nat) (s : string) :
  take n (take m s) = take (Nat.min n m) s.
Proof.
  revert m s; induction n as [|n IH]; intros [|m] [|c s]; simpl; auto.
  f_equal; apply IH.
Qed.

Lemma take_append (s t : string) : take (length s) (s ++ t) = s.
Proof.
  induction s as [|c s IH]; simpl.
  - destruct t; reflexivity.
  - f_equal; exact IH.
Qed.

Lemma drop_append (s t : string) : drop (length s) (s ++ t) = t.
Proof.
  induction s as [|c s IH]; simpl; auto.
Qed.

Lemma take_append_le (n : nat) (s t : string) :
  n <= length s -> take n (s ++ t) = take n s.
Proof.
  revert s; induction n as [|n IH]; intros [|c s]; simpl; intro H;
    try reflexivity; try lia.
  f_equal; apply IH; lia.
Qed.

Lemma append_length (s t : string) :
  length (s ++ t) = length s + length t.
Proof.
  induction s as [|c s IH]; simpl; auto.
Qed.

Lemma startswith_length (s p : string) :
  startswith s p = true -> length p <= length s.
Proof.
  revert s; induction p as [|a p IH]; intros [|b s]; simpl; intro H;
    try lia; try discriminate.
  apply andb_true_iff in H as [_ H]. apply IH in H. lia.
Qed.

Lemma startswith_take (n : nat) (s : string) : startswith s (take n s) = true.
Proof.
  revert s; induction n as [|n IH]; intros [|c s]; simpl; auto.
  rewrite Ascii.eqb_refl. apply IH.
Qed.

Lemma startswith_append (s t : string) : startswith (s ++ t) s = true.
Proof.
  induction s as [|c s IH]; simpl; [reflexivity|].
  apply andb_true_iff; split; [apply Ascii.eqb_refl | exact IH].
Qed.

Lemma split_not_nil (sep : ascii) (s : string) : split sep s <> [].
Proof.
  destruct s as [|c s]; simpl; [discriminate|].
  destruct (Ascii.eqb c sep); [discriminate|].
  destruct (split sep s); discriminate.
Qed.

Lemma replicate_length (n : nat) (c : ascii) : length (replicate n c) = n.
Proof.
  induction n as [|n IH]; simpl; auto.
Qed.

End PyStrFacts.

(** ** Dicts *)

Lemma dict_set_not_nil (d : dict) (k : string) (v : json) :
  dict_set d k v <> [].
Proof.
  destruct d as [|[k' v'] d]; simpl; [discriminate|].
  destruct (String.eqb k' k); discriminate.
Qed.

Lemma dict_lookup_set_same (d : dict) (k : string) (v : json) :
  dict_lookup (dict_set d k v) k = Some v.
Proof.
  induction d as [|[k' v'] d IH]; simpl.
  - rewrite String.eqb_refl. reflexivity.
  - destruct (String.eqb k' k) eqn:E; simpl; rewrite E; auto.
Qed.

Lemma dict_lookup_set_other (d : dict) (k k0 : string) (v : json) :
  k <> k0 -> dict_lookup (dict_set d k v) k0 = dict_lookup d k0.
Proof.
  intros Hne. induction d as [|[k' v'] d IH]; simpl.
  - destruct (String.eqb_spec k k0); [contradiction | reflexivity].
  - destruct (String.eqb_spec k' k) as [->|Hk]; simpl.
    + destruct (String.eqb_spec k k0); [contradiction | reflexivity].
    + destruct (String.eqb k' k0); auto.
Qed.

Section Project.

Variable data : dict.

Lemma project_fold_not_nil (subkeys : list string) (acc : dict) :
  acc <> [] -> fold_left (project_step data) subkeys acc <> [].
Proof.
  revert acc; induction subkeys as [|sk subkeys IH]; simpl; intros acc H; auto.
  apply IH. apply dict_set_not_nil.
Qed.

Lemma project_not_nil (subkeys : list string) :
  subkeys <> [] -> project data subkeys <> [].
Proof.
  destruct subkeys as [|sk subkeys]; [contradiction|]; intros _.
  unfold project; simpl. apply project_fold_not_nil; discriminate.
Qed.

Lemma project_fold_lookup (subkeys : list string) (acc : dict) (n : string) :
  dict_lookup (fold_left (project_step data) subkeys acc) n =
  if in_dec string_dec n subkeys then Some (dict_get data n JNull)
  else dict_lookup acc n.
Proof.
  revert acc; induction subkeys as [|sk subkeys IH]; intros acc; simpl.
  - reflexivity.
  - rewrite IH. destruct (in_dec string_dec n subkeys) as [Hin|Hnin].
    + destruct (string_dec sk n); reflexivity.
    + destruct (string_dec sk n) as [->|Hne].
      * unfold project_step. apply dict_lookup_set_same.
      * unfold project_step. apply dict_lookup_set_other; assumption.
Qed.

(** What the composite holds: every requested name, with the value of the
    source dict or null, and no other key. *)
Lemma project_lookup (subkeys : list string) (n : string) :
  dict_lookup (project data subkeys) n =
  if in_dec string_dec n subkeys then Some (dict_get data n JNull) else None.
Proof.
  unfold project. apply (project_fold_lookup subkeys [] n).
Qed.

End Project.

(** ** Generators *)

Section YieldFromEach.

Context {A : Type}.

Lemma yield_from_each_ext (f g : A -> gen) (xs : list A) :
  (forall x, In x xs -> f x = g x) ->
  yield_from_each f xs = yield_from_each g xs.
Proof.
  induction xs as [|x xs IH]; simpl; intros H; [reflexivity|].
  rewrite <- (H x) by auto. rewrite IH by auto. reflexivity.
Qed.

(** Every value comes out of one of the calls. *)
Lemma yield_from_each_in (f : A -> gen) (xs : list A) (v : json) :
  In v (yields (yield_from_each f xs)) ->
  exists x, In x xs /\ In v (yields (f x)).
Proof.
  induction xs as [|x xs IH]; simpl; [contradiction|].
  destruct (f x) as [ys o] eqn:E.
  assert (Hx : In v ys -> exists x0, (x = x0 \/ In x0 xs) /\ In v (yields (f x0))).
  { intros Hv. exists x. rewrite E. auto. }
  destruct o; simpl; auto.
  destruct (yield_from_each f xs) as [zs o'] eqn:E'; simpl in *.
  intros Hv. apply in_app_or in Hv as [Hv|Hv]; auto.
  destruct (IH Hv) as [x0 [Hin Hy]]. exists x0; auto.
Qed.

(** The ending of the loop is the ending of one of the calls, unless every
    call returned. *)
Lemma yield_from_each_ending (f : A -> gen) (xs : list A) :
  ending (yield_from_each f xs) = Returned \/
  exists x, In x xs /\ ending (f x) = ending (yield_from_each f xs).
Proof.
  induction xs as [|x xs IH]; simpl; auto.
  destruct (f x) as [ys o] eqn:E.
  destruct o; simpl.
  - destruct (yield_from_each f xs) as [zs o'] eqn:E'; simpl in *.
    destruct IH as [IH|[x0 [Hin Hx0]]]; auto.
    right. exists x0; auto.
  - right. exists x. rewrite E. auto.
  - right. exists x. rewrite E. auto.
Qed.

(** When every call returns, the loop returns the concatenation of what the
    calls yielded, in the order of the list. *)
Lemma yield_from_each_returned (f : A -> gen) (xs : list A) :
  (forall x, In x xs -> ending (f x) = Returned) ->
  yield_from_each f xs = (List.concat (map (fun x => yields (f x)) xs), Returned).
Proof.
  induction xs as [|x xs IH]; simpl; intros H; [reflexivity|].
  pose proof (H x (or_introl eq_refl)) as Hx.
  destruct (f x) as [ys o]; simpl in *; subst o.
  rewrite IH by auto. reflexivity.
Qed.

(** In every case the values yielded are a prefix of that concatenation. *)
Lemma yield_from_each_prefix (f : A -> gen) (xs : list A) :
  exists rest,
    List.concat (map (fun x => yields (f x)) xs) =
    yields (yield_from_each f xs) ++ rest.
Proof.
  induction xs as [|x xs IH]; simpl.
  - exists []. reflexivity.
  - destruct IH as [rest IH].
    destruct (f x) as [ys o]; simpl.
    destruct o; simpl; try (eexists; reflexivity).
    destruct (yield_from_each f xs) as [zs o']; simpl in *.
    exists rest. rewrite IH. apply app_assoc.
Qed.

End YieldFromEach.

(** ** The matcher *)

Lemma visit_segment_ext (f g : json -> gen) (data : json) (seg : segment) :
  (forall v, f v = g v) -> visit_segment f data seg = visit_segment g data seg.
Proof.
  intros H. destruct seg, data; simpl; try reflexivity.
  - apply yield_from_each_ext. intros sk _.
    destruct (dict_lookup d sk); auto.
  - destruct (py_iter (dict_get d name (JList []))); [|reflexivity].
    apply yield_from_each_ext; auto.
  - apply H.
Qed.

(** A property of the values the recursive calls yield carries over to the
    dispatch, given that it holds of the composite of a multi-key leaf. *)
Lemma visit_segment_in (P : json -> Prop) (visit : json -> gen)
      (data : json) (seg : segment) :
  (forall x v, In v (yields (visit x)) -> P v) ->
  (forall d subkeys, seg = MultiKeyLeaf subkeys -> P (JDict (project d subkeys))) ->
  forall v, In v (yields (visit_segment visit data seg)) -> P v.
Proof.
  intros Hvisit Hleaf v.
  destruct seg, data; simpl; try contradiction.
  - intros Hv. apply yield_from_each_in in Hv as [sk [_ Hv]].
    destruct (dict_lookup d sk); [eauto | contradiction].
  - destruct (py_iter (dict_get d name (JList []))); [|contradiction].
    intros Hv. apply yield_from_each_in in Hv as [x [_ Hv]]. eauto.
  - intros [<-|[]]. apply Hleaf. reflexivity.
  - eauto.
Qed.

Lemma visit_segment_ending (visit : json -> gen) (data : json) (seg : segment) :
  (forall x, ending (visit x) <> DepthExceeded) ->
  ending (visit_segment visit data seg) <> DepthExceeded.
Proof.
  intros Hvisit.
  destruct seg, data; simpl; try discriminate.
  - match goal with |- ending (yield_from_each ?f ?xs) <> _ =>
      destruct (yield_from_each_ending f xs) as [E|[sk [_ E]]] end.
    + rewrite E; discriminate.
    + rewrite <- E. destruct (dict_lookup d sk); [apply Hvisit | discriminate].
  - destruct (py_iter (dict_get d name (JList []))); [|discriminate].
    match goal with |- ending (yield_from_each ?f ?xs) <> _ =>
      destruct (yield_from_each_ending f xs) as [E|[x [_ E]]] end.
    + rewrite E; discriminate.
    + rewrite <- E. apply Hvisit.
  - apply Hvisit.
Qed.

(** The key handed to the recursive calls has fewer segments, and is
    shorter, than the key it was split from. *)
Lemma split_key_decreases (k subkey : string) (remaining_key : option string) :
  split_key k = (subkey, remaining_key) ->
  segments remaining_key <= PyStr.count "."%char k /\
  match remaining_key with
  | Some r => length r < length k
  | None => True
  end.
Proof.
  revert subkey remaining_key.
  induction k as [|c k IH]; simpl; intros subkey remaining_key H.
  - inversion H; subst; simpl. auto.
  - destruct (Ascii.eqb c ".") eqn:Ec.
    + inversion H; subst; simpl. split; [|lia].
      destruct (String.eqb k ""); lia.
    + destruct (split_key k) as [s r] eqn:Es. inversion H; subst.
      destruct (IH s remaining_key eq_refl) as [H1 H2]. split; [simpl; lia|].
      destruct remaining_key; auto.
Qed.

Lemma split_key_segments (k subkey : string) (remaining_key : option string) :
  String.eqb k "" = false ->
  split_key k = (subkey, remaining_key) ->
  segments remaining_key < segments (Some k).
Proof.
  intros Hk H. apply split_key_decreases in H as [H _].
  simpl. rewrite Hk. lia.
Qed.

(** Any depth above the number of segments gives the same run. *)
Lemma visit_path_depth_stable (depth1 depth2 : nat) :
  forall (data : json) (key : option string),
    segments key < depth1 -> segments key < depth2 ->
    visit_path_depth depth1 data key = visit_path_depth depth2 data key.
Proof.
  revert depth2. induction depth1 as [|depth1 IH]; intros depth2 data key H1 H2;
    [lia|].
  destruct depth2 as [|depth2]; [lia|]. simpl.
  destruct (negb (truthy data)); [reflexivity|].
  destruct key as [k|]; [|reflexivity].
  destruct (String.eqb k "") eqn:Ek; [reflexivity|].
  destruct (split_key k) as [subkey remaining_key] eqn:Es.
  pose proof (split_key_segments _ _ _ Ek Es) as Hlt.
  apply visit_segment_ext. intros v. apply IH; lia.
Qed.

Lemma visit_path_depth_enough (depth : nat) (data : json) (key : option string) :
  segments key < depth ->
  visit_path_depth depth data key = visit_path data key.
Proof.
  intros H. unfold visit_path. apply visit_path_depth_stable; lia.
Qed.

Lemma visit_path_depth_ending (depth : nat) :
  forall (data : json) (key : option string),
    segments key < depth ->
    ending (visit_path_depth depth data key) <> DepthExceeded.
Proof.
  induction depth as [|depth IH]; intros data key H; [lia|]. simpl.
  destruct (negb (truthy data)); [discriminate|].
  destruct key as [k|]; [|discriminate].
  destruct (String.eqb k "") eqn:Ek; [discriminate|].
  destruct (split_key k) as [subkey remaining_key] eqn:Es.
  pose proof (split_key_segments _ _ _ Ek Es) as Hlt.
  apply visit_segment_ending. intros x. apply IH. lia.
Qed.

(** The body of [visit_path], with the recursive calls as calls of
    [visit_path] itself. *)
Lemma visit_path_unfold (data : json) (key : option string) :
  visit_path data key =
  if negb (truthy data) then gen_nothing
  else match key with
       | None => gen_yield data
       | Some k =>
           if String.eqb k "" then gen_yield data
           else let (subkey, remaining_key) := split_key k in
                visit_segment (fun v => visit_path v remaining_key)
                              data (classify subkey)
       end.
Proof.
  unfold visit_path at 1. simpl.
  destruct (negb (truthy data)); [reflexivity|].
  destruct key as [k|]; [|reflexivity].
  destruct (String.eqb k "") eqn:Ek; [reflexivity|].
  destruct (split_key k) as [subkey remaining_key] eqn:Es.
  pose proof (split_key_segments _ _ _ Ek Es) as Hlt.
  apply visit_segment_ext. intros v.
  apply visit_path_depth_enough. exact Hlt.
Qed.

Lemma visit_path_segment (data : json) (k : string) (seg : segment)
      (remaining_key : option string) :
  key_splits k seg remaining_key ->
  truthy data = true ->
  visit_path data (Some k) =
  visit_segment (fun v => visit_path v remaining_key) data seg.
Proof.
  intros [Ek [subkey [Es Ec]]] Ht.
  rewrite visit_path_unfold, Ht, Ek, Es, Ec. reflexivity.
Qed.

Lemma visit_path_falsy (data : json) (key : option string) :
  truthy data = false -> visit_path data key = gen_nothing.
Proof.
  intros Ht. rewrite visit_path_unfold, Ht. reflexivity.
Qed.

Lemma visit_path_truthy (depth : nat) :
  forall (data : json) (key : option string) (v : json),
    In v (yields (visit_path_depth depth data key)) -> truthy v = true.
Proof.
  induction depth as [|depth IH]; intros data key v; simpl; [contradiction|].
  destruct (truthy data) eqn:Ht; simpl; [|contradiction].
  assert (Hself : In v (yields (gen_yield data)) -> truthy v = true).
  { intros [<-|[]]. exact Ht. }
  destruct key as [k|]; [|exact Hself].
  destruct (String.eqb k ""); [exact Hself|].
  destruct (split_key k) as [subkey remaining_key].
  apply (visit_segment_in (fun w => truthy w = true)).
  - intros x w. apply IH.
  - intros d subkeys Hc.
    assert (Hn : subkeys <> []).
    { unfold classify in Hc.
      destruct (PyStr.endswith subkey "*"); [discriminate|].
      destruct (PyStr.endswith subkey "[]"); [discriminate|].
      destruct (PyStr.startswith subkey "[" && PyStr.endswith subkey "]");
        [|discriminate].
      inversion Hc. apply PyStrFacts.split_not_nil. }
    pose proof (project_not_nil d subkeys Hn) as Hp.
    simpl. destruct (project d subkeys); [contradiction | reflexivity].
Qed.

(** ** Claims about the matcher *)

(** C1, as the spec states it, fails: matching null against the empty path
    yields nothing, not the one-element sequence holding null. *)
Lemma visit_path_empty_path_null :
  visit_path JNull (Some "") = ([], Returned) /\
  visit_path JNull (Some "") <> ([JNull], Returned).
Proof.
  split; [reflexivity | discriminate].
Qed.

(** C1, amended: against the empty path (the empty string, or no key at
    all) a truthy value is yielded alone and a falsy value (null, false, 0,
    the empty string, an empty mapping or sequence) yields nothing; the
    generator returns in both cases. *)
Theorem visit_path_empty_path :
  forall v : json,
    visit_path v (Some "") = ((if truthy v then [v] else []), Returned) /\
    visit_path v None = ((if truthy v then [v] else []), Returned).
Proof.
  intros v. rewrite !visit_path_unfold. simpl.
  destruct (truthy v); split; reflexivity.
Qed.

(** C2, as the spec states it, fails: a plain key and a wildcard key against
    a truthy value that is not a mapping raise an AttributeError. *)
Lemma visit_path_non_mapping_raises :
  visit_path (JStr "abc") (Some "x") = ([], Raised AttributeError) /\
  visit_path (JInt 1) (Some "Book*.title") = ([], Raised AttributeError).
Proof.
  split; reflexivity.
Qed.

(** C2, amended: for a key whose head segment is a plain key or a wildcard
    key and a value that is not a mapping, nothing is yielded; the generator
    returns when the value is falsy and raises an AttributeError when it is
    truthy (true, a non-zero number, a non-empty string or sequence). *)
Theorem visit_path_non_mapping :
  forall (data : json) (k : string) (seg : segment)
         (remaining_key : option string),
    key_splits k seg remaining_key ->
    is_key_or_wildcard seg = true ->
    is_dict data = false ->
    visit_path data (Some k) =
    ([], if truthy data then Raised AttributeError else Returned).
Proof.
  intros data k seg remaining_key Hk Hseg Hd.
  destruct (truthy data) eqn:Ht.
  - rewrite (visit_path_segment _ _ _ _ Hk Ht).
    destruct seg; try discriminate; destruct data; try discriminate;
      reflexivity.
  - apply visit_path_falsy. exact Ht.
Qed.

Lemma visit_path_non_mapping_witness :
  key_splits "x.y" (Key "x") (Some "y") /\
  visit_path (JStr "abc") (Some "x.y") = ([], Raised AttributeError).
Proof.
  assert (H : key_splits "x.y" (Key "x") (Some "y")).
  { split; [reflexivity|]. exists "x". split; reflexivity. }
  split; [exact H|].
  exact (visit_path_non_mapping (JStr "abc") "x.y" (Key "x") (Some "y")
                                H eq_refl eq_refl).
Defined.

(** The example of C5: one composite, with null for the name the mapping
    lacks. *)
Example visit_path_multi_key_example :
  visit_path (JDict abc_mapping) (Some "[a,b,c,d]") =
  ([JDict [("a", JInt 1); ("b", JInt 2); ("c", JNull); ("d", JNull)]],
   Returned).
Proof. reflexivity. Qed.

(** C5, as the spec states it, fails on the empty mapping: nothing is
    yielded, where the claim has the composite of nulls. *)
Lemma visit_path_multi_key_empty_mapping :
  visit_path (JDict []) (Some "[a]") = ([], Returned) /\
  visit_path (JDict []) (Some "[a]") <>
  ([JDict (project [] ["a"])], Returned).
Proof.
  split; [reflexivity | discriminate].
Qed.

(** C5, amended: for every non-empty mapping and every key whose head
    segment is a multi-key leaf, exactly one composite is yielded, whatever
    follows the leaf in the key; the composite holds each requested name
    with the mapping's value, or null, and nothing else; a null value
    yields nothing. *)
Theorem visit_path_multi_key :
  forall (d : dict) (k : string) (subkeys : list string)
         (remaining_key : option string),
    d <> [] ->
    key_splits k (MultiKeyLeaf subkeys) remaining_key ->
    visit_path (JDict d) (Some k) = ([JDict (project d subkeys)], Returned) /\
    (forall n : string,
        dict_lookup (project d subkeys) n =
        if in_dec string_dec n subkeys then Some (dict_get d n JNull)
        else None) /\
    visit_path JNull (Some k) = ([], Returned).
Proof.
  intros d k subkeys remaining_key Hd Hk.
  split; [|split].
  - assert (Ht : truthy (JDict d) = true).
    { destruct d; [contradiction | reflexivity]. }
    rewrite (visit_path_segment _ _ _ _ Hk Ht). reflexivity.
  - intros n. apply project_lookup.
  - apply visit_path_falsy. reflexivity.
Qed.

Lemma visit_path_multi_key_witness :
  visit_path (JDict abc_mapping) (Some "[a,b,c,d].more") =
  ([JDict [("a", JInt 1); ("b", JInt 2); ("c", JNull); ("d", JNull)]],
   Returned).
Proof.
  assert (Hd : abc_mapping <> []) by discriminate.
  assert (Hk : key_splits "[a,b,c,d].more"
                          (MultiKeyLeaf ["a"; "b"; "c"; "d"]) (Some "more")).
  { split; [reflexivity|]. exists "[a,b,c,d]". split; reflexivity. }
  exact (proj1 (visit_path_multi_key abc_mapping "[a,b,c,d].more"
                                     ["a"; "b"; "c"; "d"] (Some "more")
                                     Hd Hk)).
Defined.

(** C6: for every mapping and every key whose head segment is an array key,
    an absent name gives nothing; a name bound to a sequence gives the
    matches of its elements under the remaining key, element by element in
    the order of the sequence: the run is the loop over the elements, what
    it yields is a prefix of the concatenation of the elements' matches,
    and it is the whole concatenation when every element's match returns. *)
Theorem visit_path_array_key :
  forall (d : dict) (k name : string) (remaining_key : option string),
    key_splits k (ArrayKey name) remaining_key ->
    (dict_lookup d name = None ->
     visit_path (JDict d) (Some k) = ([], Returned)) /\
    (forall l : list json,
        dict_lookup d name = Some (JList l) ->
        let matches := fun v => visit_path v remaining_key in
        visit_path (JDict d) (Some k) = yield_from_each matches l /\
        (exists rest,
            List.concat (map (fun v => yields (matches v)) l) =
            yields (visit_path (JDict d) (Some k)) ++ rest) /\
        ((forall v, In v l -> ending (matches v) = Returned) ->
         visit_path (JDict d) (Some k) =
         (List.concat (map (fun v => yields (matches v)) l), Returned))).
Proof.
  intros d k name remaining_key Hk.
  destruct d as [|kv d].
  - split; [intros _; reflexivity | intros l H; discriminate].
  - assert (Ht : truthy (JDict (kv :: d)) = true) by reflexivity.
    rewrite (visit_path_segment _ _ _ _ Hk Ht).
    unfold visit_segment, dict_get.
    split.
    + intros ->. reflexivity.
    + intros l ->. cbv zeta. simpl py_iter. cbv iota.
      split; [reflexivity|]. split.
      * apply yield_from_each_prefix.
      * apply yield_from_each_returned.
Qed.

Lemma visit_path_array_key_witness :
  visit_path (JDict items_mapping) (Some "items[].y") =
  ([JInt 1; JInt 3], Returned).
Proof.
  assert (Hk : key_splits "items[].y" (ArrayKey "items") (Some "y")).
  { split; [reflexivity|]. exists "items[]". split; reflexivity. }
  assert (Hl : dict_lookup items_mapping "items" =
               Some (JList [JDict [("y", JInt 1)]; JDict [("y", JInt 0)];
                            JDict [("y", JInt 3)]])) by reflexivity.
  pose proof (proj2 (visit_path_array_key items_mapping "items[].y" "items"
                                          (Some "y") Hk) _ Hl) as H.
  cbv zeta in H. destruct H as [_ [_ H]].
  rewrite H.
  - reflexivity.
  - intros v [<-|[<-|[<-|[]]]]; reflexivity.
Defined.

(** C8: the matcher is a total function of the value and the key; a nesting
    of one call per segment of the key, plus one, is enough for every JSON
    value, however deep, and any larger allowance gives the same run; each
    recursive call receives a key with fewer segments, and fewer characters,
    than the one it was split from. *)
Theorem visit_path_terminates :
  forall (depth : nat) (data : json) (key : option string),
    segments key < depth ->
    visit_path_depth depth data key = visit_path data key /\
    ending (visit_path data key) <> DepthExceeded /\
    (forall (k subkey : string) (remaining_key : option string),
        key = Some k ->
        String.eqb k "" = false ->
        split_key k = (subkey, remaining_key) ->
        segments remaining_key < segments key /\
        match remaining_key with
        | Some r => length r < length k
        | None => True
        end).
Proof.
  intros depth data key H. split; [|split].
  - apply visit_path_depth_enough. exact H.
  - apply visit_path_depth_ending. lia.
  - intros k subkey remaining_key -> Ek Es. split.
    + eapply split_key_segments; eassumption.
    + apply (split_key_decreases _ _ _ Es).
Qed.

Lemma visit_path_terminates_witness :
  segments (Some "items[].y") < 3 /\
  visit_path_depth 3 (JDict items_mapping) (Some "items[].y") =
  visit_path (JDict items_mapping) (Some "items[].y").
Proof.
  assert (H : segments (Some "items[].y") < 3) by (simpl; lia).
  split; [exact H|].
  exact (proj1 (visit_path_terminates 3 (JDict items_mapping)
                                      (Some "items[].y") H)).
Defined.

(** C9: whatever the value and the key, every value the matcher yields is
    truthy, and a falsy value is never yielded: matching it yields
    nothing. *)
Theorem visit_path_yields_truthy :
  forall (data : json) (key : option string),
    (forall v : json, In v (yields (visit_path data key)) -> truthy v = true) /\
    (truthy data = false -> visit_path data key = ([], Returned)).
Proof.
  intros data key. split.
  - intros v. apply visit_path_truthy.
  - apply visit_path_falsy.
Qed.

Lemma visit_path_yields_truthy_witness :
  In (JInt 3) (yields (visit_path (JDict items_mapping) (Some "items[].y"))) /\
  truthy (JInt 3) = true.
Proof.
  assert (H : In (JInt 3)
                 (yields (visit_path (JDict items_mapping) (Some "items[].y")))).
  { simpl. right. left. reflexivity. }
  split; [exact H|].
  exact (proj1 (visit_path_yields_truthy (JDict items_mapping)
                                         (Some "items[].y")) (JInt 3) H).
Defined.

(** ** The text normalizer *)

Section Normalizer.

Local Open Scope string_scope.

Lemma take_drop (n : nat) (s : string) : PyStr.take n s ++ PyStr.drop n s = s.
Proof.
  revert s; induction n as [|n IH]; intros [|c s]; simpl; try reflexivity.
  f_equal. apply IH.
Qed.

Lemma div3_bounds (n : nat) : 3 * (n / 3) <= n /\ n < 3 * (n / 3) + 3.
Proof.
  pose proof (Nat.div_mod_eq n 3). pose proof (Nat.mod_upper_bound n 3).
  lia.
Qed.

(** [find] over a range returns its first hit. *)
Lemma find_seq_first (f : nat -> bool) (count lo s : nat) :
  find f (seq lo count) = Some s ->
  lo <= s < lo + count /\ f s = true /\
  forall s', lo <= s' < s -> f s' = false.
Proof.
  revert lo; induction count as [|count IH]; simpl; intros lo H;
    [discriminate|].
  destruct (f lo) eqn:E.
  - inversion H; subst. split; [lia|]. split; [exact E|].
    intros s' Hs'. lia.
  - apply IH in H as [H1 [H2 H3]]. split; [lia|]. split; [exact H2|].
    intros s' Hs'. destruct (Nat.eq_dec s' lo) as [->|Hne]; auto.
    apply H3. lia.
Qed.

Lemma find_seq_none (f : nat -> bool) (count lo : nat) :
  find f (seq lo count) = None ->
  forall s', lo <= s' < lo + count -> f s' = false.
Proof.
  intros H s' Hs'. apply (find_none f _ H). apply in_seq. exact Hs'.
Qed.

Lemma first_split_some (text : string) (s : nat) :
  first_split text = Some s ->
  length text / 3 <= s < (length text * 2) / 3 /\
  signature_test text s = true /\
  forall s', length text / 3 <= s' < s -> signature_test text s' = false.
Proof.
  unfold first_split, range. intros H.
  apply find_seq_first in H as [H1 [H2 H3]].
  split; [lia|]. split; [exact H2|]. intros s' Hs'. apply H3. lia.
Qed.

Lemma first_split_none (text : string) :
  first_split text = None ->
  forall s', length text / 3 <= s' < (length text * 2) / 3 ->
             signature_test text s' = false.
Proof.
  unfold first_split, range. intros H s' Hs'.
  apply (find_seq_none _ _ _ H). lia.
Qed.

(** A split point passes the test only if its signature has more than 50
    characters and fits in what follows the split point. *)
Lemma signature_test_fits (text : string) (s : nat) :
  signature_test text s = true ->
  50 < Nat.min 100 (Nat.min s (length text)) /\
  Nat.min 100 (Nat.min s (length text)) <= length text - s.
Proof.
  unfold signature_test. rewrite PyStrFacts.take_length.
  intros H. apply andb_true_iff in H as [H1 H2].
  apply Nat.ltb_lt in H1. split; [exact H1|].
  apply PyStrFacts.startswith_length in H2.
  rewrite PyStrFacts.take_length, PyStrFacts.take_length,
    PyStrFacts.drop_length in H2.
  lia.
Qed.

Lemma deduplicate_text_cases (text : string) :
  deduplicate_text text = text \/
  exists s, first_split text = Some s /\ 100 <= length text /\
            deduplicate_text text = PyStr.take s text.
Proof.
  unfold deduplicate_text.
  destruct (String.eqb text "" || Nat.ltb (length text) 100) eqn:E; auto.
  apply orb_false_iff in E as [_ E]. apply Nat.ltb_ge in E.
  destruct (first_split text) as [s|]; auto.
  right. exists s. auto.
Qed.

(** A text of fewer than 102 characters is left as it is. *)
Lemma deduplicate_text_short (text : string) :
  length text < 102 -> deduplicate_text text = text.
Proof.
  intros Hlen.
  destruct (deduplicate_text_cases text) as [H|[s [Hs [Hl H]]]]; auto.
  apply first_split_some in Hs as [_ [Hs _]].
  apply signature_test_fits in Hs. lia.
Qed.

(** A text of at most 201 characters is left as it is or cut to fewer than
    102 characters. *)
Lemma deduplicate_text_small_input (text : string) :
  length text <= 201 ->
  deduplicate_text text = text \/ length (deduplicate_text text) < 102.
Proof.
  intros Hlen.
  destruct (deduplicate_text_cases text) as [H|[s [Hs [Hl H]]]]; auto.
  right. rewrite H, PyStrFacts.take_length.
  apply first_split_some in Hs as [_ [Hs _]].
  apply signature_test_fits in Hs. lia.
Qed.

(** The split point at the middle of a doubled text passes the test. *)
Lemma signature_test_doubled (S : string) :
  60 <= length S -> signature_test (S ++ S) (length S) = true.
Proof.
  intros Hlen. unfold signature_test.
  rewrite PyStrFacts.take_append, PyStrFacts.drop_append.
  apply andb_true_iff. split.
  - apply Nat.ltb_lt. lia.
  - apply PyStrFacts.startswith_take.
Qed.

(** ** Claims about the text normalizer *)

(** C3, as the spec states it, fails: 306 copies of one character are cut
    to 102, and these 102 are cut again to 51. *)
Lemma deduplicate_text_not_idempotent :
  deduplicate_text (deduplicate_text (PyStr.replicate 306 "a"%char)) <>
  deduplicate_text (PyStr.replicate 306 "a"%char).
Proof.
  intros H.
  apply (f_equal length) in H. vm_compute in H. discriminate.
Qed.

(** C3, amended: normalizing twice is the same as normalizing once whenever
    the text has at most 201 characters, or its normalization has fewer
    than 102 characters, or normalization leaves it unchanged. *)
Theorem deduplicate_text_idempotent :
  forall text : string,
    length text <= 201 \/
    length (deduplicate_text text) < 102 \/
    deduplicate_text text = text ->
    deduplicate_text (deduplicate_text text) = deduplicate_text text.
Proof.
  intros text [H|[H|H]].
  - destruct (deduplicate_text_small_input text H) as [E|E].
    + rewrite E. exact E.
    + apply deduplicate_text_short. exact E.
  - apply deduplicate_text_short. exact H.
  - rewrite H. exact H.
Qed.

Lemma deduplicate_text_idempotent_witness :
  length (PyStr.replicate 120 "a"%char) <= 201 /\
  deduplicate_text (deduplicate_text (PyStr.replicate 120 "a"%char)) =
  deduplicate_text (PyStr.replicate 120 "a"%char).
Proof.
  assert (H : length (PyStr.replicate 120 "a"%char) <= 201).
  { rewrite PyStrFacts.replicate_length. lia. }
  split; [exact H|].
  exact (deduplicate_text_idempotent (PyStr.replicate 120 "a"%char)
                                     (or_introl H)).
Defined.

(** Already at the least length the claim covers the cut can come early:
    for S made of 60 copies of one character, S + S is cut to 51. *)
Example deduplicate_text_doubled_sixty :
  deduplicate_text (sixty_a ++ sixty_a) = PyStr.replicate 51 "a"%char.
Proof.
  vm_compute. reflexivity.
Qed.

(** C7, as the spec states it, fails: for S made of a hundred a, a hundred
    b and a hundred a, the normalization of S + S stops after the b's; the
    result is neither S nor the prefix of S + S that ends where the second
    copy of S begins. *)
Lemma deduplicate_text_doubled_cut_early :
  deduplicate_text (aba_text ++ aba_text) =
  PyStr.replicate 100 "a"%char ++ PyStr.replicate 100 "b"%char /\
  deduplicate_text (aba_text ++ aba_text) <> aba_text /\
  deduplicate_text (aba_text ++ aba_text) <>
  PyStr.take (length aba_text) (aba_text ++ aba_text).
Proof.
  split; [vm_compute; reflexivity|].
  split; intros H; apply (f_equal length) in H; vm_compute in H; discriminate.
Qed.

(** C7, amended: for every S of at least 60 characters, the normalization
    of S + S is the prefix of S cut at the first split point of the scan
    range, from a third of the length of S + S up to the length of S, that
    passes the signature test; it is S itself when no split point before
    the length of S passes. *)
Theorem deduplicate_text_doubled :
  forall S : string,
    60 <= length S ->
    exists s : nat,
      length (S ++ S) / 3 <= s <= length S /\
      deduplicate_text (S ++ S) = PyStr.take s S /\
      signature_test (S ++ S) s = true /\
      (forall s', length (S ++ S) / 3 <= s' < s ->
                  signature_test (S ++ S) s' = false) /\
      ((forall s', length (S ++ S) / 3 <= s' < length S ->
                   signature_test (S ++ S) s' = false) ->
       deduplicate_text (S ++ S) = S).
Proof.
  intros S Hlen.
  pose proof (signature_test_doubled S Hlen) as Hmid.
  pose proof (PyStrFacts.append_length S S) as HL.
  pose proof (div3_bounds (length (S ++ S))) as Hd1.
  pose proof (div3_bounds (length (S ++ S) * 2)) as Hd2.
  destruct (deduplicate_text_cases (S ++ S)) as [H|[s [Hs [Hl H]]]].
  - exfalso. unfold deduplicate_text in H.
    destruct (String.eqb (S ++ S) "" || Nat.ltb (length (S ++ S)) 100) eqn:E.
    + apply orb_true_iff in E as [E|E].
      * apply PyStrFacts.eqb_empty_length in E. lia.
      * apply Nat.ltb_lt in E. lia.
    + destruct (first_split (S ++ S)) as [s|] eqn:Hs.
      * apply first_split_some in Hs as [Hr _].
        apply (f_equal length) in H.
        rewrite PyStrFacts.take_length in H. lia.
      * pose proof (first_split_none _ Hs (length S)) as Hn.
        rewrite Hmid in Hn. assert (false = true -> False) by discriminate.
        apply H0. symmetry. apply Hn. lia.
  - apply first_split_some in Hs as [Hr [Ht Hfirst]].
    assert (Hle : s <= length S).
    { destruct (Nat.le_gt_cases s (length S)) as [Hle|Hgt]; auto.
      rewrite (Hfirst (length S)) in Hmid by lia. discriminate. }
    exists s. rewrite H.
    rewrite (PyStrFacts.take_append_le s S S Hle).
    repeat split; try lia; auto.
    intros Hnone. destruct (Nat.eq_dec s (length S)) as [->|Hne].
    + apply PyStrFacts.take_all. lia.
    + rewrite (Hnone s) in Ht by lia. discriminate.
Qed.

Lemma deduplicate_text_doubled_witness :
  60 <= length sixty_a /\
  exists s : nat,
    deduplicate_text (sixty_a ++ sixty_a) = PyStr.take s sixty_a.
Proof.
  assert (H : 60 <= length sixty_a).
  { unfold sixty_a. rewrite PyStrFacts.replicate_length. lia. }
  split; [exact H|].
  destruct (deduplicate_text_doubled sixty_a H) as [s [_ [Hs _]]].
  exists s. exact Hs.
Defined.

(** C10: the normalization of a text is the text itself or its prefix of
    length s, for an s from a third of the length up to, and not
    including, two thirds of it, and so shorter than the text; the result
    is always a prefix of the text and never longer than it. *)
Theorem deduplicate_text_prefix :
  forall text : string,
    (deduplicate_text text = text \/
     exists s : nat,
       length text / 3 <= s < (length text * 2) / 3 /\
       s < length text /\
       deduplicate_text text = PyStr.take s text /\
       length (deduplicate_text text) = s) /\
    (exists rest : string, text = deduplicate_text text ++ rest) /\
    length (deduplicate_text text) <= length text.
Proof.
  intros text.
  pose proof (div3_bounds (length text * 2)) as Hd.
  destruct (deduplicate_text_cases text) as [H|[s [Hs [Hl H]]]].
  - rewrite H. split; [auto|]. split; [|lia].
    exists "". clear. induction text as [|c t IH]; simpl; congruence.
  - apply first_split_some in Hs as [Hr _].
    rewrite H, PyStrFacts.take_length.
    split; [|split].
    + right. exists s. repeat split; try lia.
    + exists (PyStr.drop s text). symmetry. apply take_drop.
    + lia.
Qed.

End Normalizer.

(** ** The batch merge *)

Section MergeFacts.

Variable json_loads : string -> option json.

Lemma process_lines_skips (filename : string) (lines : list string) :
  forall st st' : merge_state,
    same_items st st' ->
    lines_ok json_loads lines ->
    exists r r',
      process_lines json_loads filename st lines = Ok r /\
      process_lines json_loads filename st'
        (filter (fun l => negb (undecodable json_loads l)) lines) = Ok r' /\
      same_items r r' /\
      diagnostics r =
      diagnostics st ++
        map (fun l => (filename, l)) (filter (undecodable json_loads) lines) /\
      diagnostics r' = diagnostics st'.
Proof.
  induction lines as [|l lines IH]; intros st st' Hsame Hok.
  - exists st, st'. simpl. rewrite app_nil_r. auto.
  - assert (Hok' : lines_ok json_loads lines).
    { intros l' Hl'. apply Hok. right. exact Hl'. }
    destruct (Hok l (or_introl eq_refl)) as [Hl|Hl].
    + (* the line does not decode: one diagnostic, nothing else changes *)
      simpl. rewrite Hl. simpl.
      unfold process_line. unfold undecodable in Hl.
      destruct (json_loads (strip l)); [discriminate|].
      destruct (IH (mkState (seen_urls st) (unique_items st)
                            (diagnostics st ++ [(filename, l)])) st')
        as [r [r' [H1 [H2 [H3 [H4 H5]]]]]]; auto.
      exists r, r'. repeat split; try apply H3; auto.
      rewrite H4. simpl. rewrite <- app_assoc. reflexivity.
    + (* the line is a record: both runs take the same step *)
      assert (Hdec : undecodable json_loads l = false).
      { unfold undecodable, is_record in *.
        destruct (json_loads (strip l)); [reflexivity | discriminate]. }
      simpl. rewrite Hdec. simpl.
      unfold process_line. unfold is_record in Hl.
      destruct (json_loads (strip l)) as [item|]; [|discriminate].
      destruct item; try discriminate.
      destruct Hsame as [Hseen Huniq].
      rewrite <- Hseen, <- Huniq.
      destruct (truthy (dict_get d "url" JNull)) eqn:Ht; simpl in Hl.
      * rewrite Hl.
        destruct (negb (set_mem (dict_get d "url" JNull) (seen_urls st))).
        -- match goal with
           | |- context [process_lines _ _ ?a lines] =>
               match goal with
               | |- context [process_lines _ _ ?b (filter _ lines)] =>
                   destruct (IH a b) as [r [r' [H1 [H2 [H3 [H4 H5]]]]]];
                   [split; reflexivity | exact Hok' |]
               end
           end.
           exists r, r'. repeat split; try apply H3; auto.
        -- destruct (IH st st') as [r [r' [H1 [H2 [H3 [H4 H5]]]]]];
             [split; assumption | exact Hok' |].
           exists r, r'. repeat split; try apply H3; auto.
      * destruct (IH st st') as [r [r' [H1 [H2 [H3 [H4 H5]]]]]];
          [split; assumption | exact Hok' |].
        exists r, r'. repeat split; try apply H3; auto.
Qed.

Lemma process_files_skips (files : list (string * list string)) :
  forall st st' : merge_state,
    same_items st st' ->
    files_ok json_loads files ->
    exists r r',
      process_files json_loads st files = Ok r /\
      process_files json_loads st' (decodable_only json_loads files) = Ok r' /\
      same_items r r' /\
      diagnostics r = diagnostics st ++ undecodable_lines json_loads files /\
      diagnostics r' = diagnostics st'.
Proof.
  induction files as [|[filename lines] files IH]; intros st st' Hsame Hok.
  - exists st, st'. simpl. rewrite app_nil_r. auto.
  - assert (Hlines : lines_ok json_loads lines).
    { intros l Hl. apply (Hok (filename, lines)); simpl; auto. }
    assert (Hfiles : files_ok json_loads files).
    { intros f l Hf Hl. apply (Hok f l); simpl; auto. }
    destruct (process_lines_skips filename lines st st' Hsame Hlines)
      as [m [m' [H1 [H2 [H3 [H4 H5]]]]]].
    destruct (IH m m' H3 Hfiles) as [r [r' [G1 [G2 [G3 [G4 G5]]]]]].
    exists r, r'. simpl. rewrite H1, H2.
    repeat split; try apply G3; auto.
    + rewrite G4, H4, <- app_assoc. reflexivity.
    + congruence.
Qed.

End MergeFacts.

(** ** Claims about the batch merge *)

(** C4, as the spec states it, fails: a line holding the JSON number 7
    cannot be processed as a record, and the merge stops on it with an
    AttributeError instead of skipping it. *)
Lemma combine_and_dedupe_aborts_on_non_object :
  combine_and_dedupe sample_loads [sample_file] = Error AttributeError.
Proof.
  vm_compute. reflexivity.
Qed.

(** C4, amended: when every line either fails to decode or decodes to an
    object whose url is falsy or hashable, the merge completes; every line
    that fails to decode is skipped with one diagnostic naming its file,
    in reading order; and what is kept is what the merge keeps on the same
    files without those lines. *)
Theorem combine_and_dedupe_skips_undecodable :
  forall (json_loads : string -> option json)
         (files : list (string * list string)),
    files_ok json_loads files ->
    exists st st' : merge_state,
      combine_and_dedupe json_loads files = Ok st /\
      combine_and_dedupe json_loads (decodable_only json_loads files) = Ok st' /\
      unique_items st = unique_items st' /\
      seen_urls st = seen_urls st' /\
      diagnostics st = undecodable_lines json_loads files /\
      diagnostics st' = [].
Proof.
  intros json_loads files Hok.
  destruct (process_files_skips json_loads files initial_state initial_state)
    as [r [r' [H1 [H2 [[H3 H4] [H5 H6]]]]]].
  - split; reflexivity.
  - exact Hok.
  - exists r, r'. unfold combine_and_dedupe. auto 10.
Qed.

Lemma combine_and_dedupe_skips_undecodable_witness :
  exists st : merge_state,
    combine_and_dedupe sample_loads [sample_file_bad_text] = Ok st /\
    unique_items st = [JDict [("url", JInt 1)]; JDict [("url", JInt 2)]] /\
    diagnostics st = [("book_batch1.jl", ("{oops" ++ nl)%string)].
Proof.
  assert (Hok : files_ok sample_loads [sample_file_bad_text]).
  { intros f l [<-|[]] [<-|[<-|[<-|[]]]]; vm_compute; auto. }
  destruct (combine_and_dedupe_skips_undecodable
              sample_loads [sample_file_bad_text] Hok)
    as [st [st' [H1 [H2 [H3 [H4 [H5 H6]]]]]]].
  exists st. split; [exact H1|]. split.
  - rewrite H3. vm_compute in H2. inversion H2. reflexivity.
  - rewrite H5. vm_compute. reflexivity.
Defined.

(** * Further properties *)

(** ** The path syntax *)

Section PathSyntax.

Local Open Scope string_scope.

Lemma str_append_assoc (s t u : string) : (s ++ t) ++ u = s ++ (t ++ u).
Proof.
  induction s as [|c s IH]; simpl; congruence.
Qed.

Lemma str_append_nil_r (s : string) : s ++ "" = s.
Proof.
  induction s as [|c s IH]; simpl; congruence.
Qed.

Lemma drop_append_more (k : nat) (s t : string) :
  PyStr.drop (length s + k) (s ++ t) = PyStr.drop k t.
Proof.
  induction s as [|c s IH]; simpl; auto.
Qed.

(** [endswith] says that the text is something followed by the suffix. *)
Lemma endswith_iff (s p : string) :
  PyStr.endswith s p = true <-> exists pre, s = pre ++ p.
Proof.
  unfold PyStr.endswith. split.
  - intros H. apply andb_true_iff in H as [_ H].
    apply String.eqb_eq in H.
    exists (PyStr.take (length s - length p) s).
    pose proof (take_drop (length s - length p) s) as E.
    rewrite H in E. symmetry. exact E.
  - intros [pre ->]. rewrite PyStrFacts.append_length.
    apply andb_true_iff. split.
    + apply Nat.leb_le. lia.
    + replace (length pre + length p - length p) with (length pre + 0) by lia.
      rewrite drop_append_more. simpl. apply String.eqb_refl.
Qed.

Lemma append_last_inj (s t : string) (a b : ascii) :
  s ++ String a "" = t ++ String b "" -> s = t /\ a = b.
Proof.
  revert t; induction s as [|c s IH]; intros [|d t]; simpl; intros H.
  - inversion H; auto.
  - inversion H as [[Hc Ht]]. destruct t; discriminate.
  - inversion H as [[Hc Hs]]. destruct s; discriminate.
  - inversion H as [[Hc Hs]]. apply IH in Hs as [-> ->]. auto.
Qed.

Lemma endswith_last_char (s : string) (a b : ascii) :
  a <> b -> PyStr.endswith (s ++ String a "") (String b "") = false.
Proof.
  intros Hab. destruct (PyStr.endswith _ _) eqn:E; [|reflexivity].
  apply endswith_iff in E as [pre E].
  apply append_last_inj in E as [_ E]. contradiction.
Qed.

Lemma split_no_sep (sep : ascii) (s : string) :
  PyStr.count sep s = 0 -> PyStr.split sep s = [s].
Proof.
  induction s as [|c s IH]; simpl; intros H; [reflexivity|].
  destruct (Ascii.eqb c sep); [discriminate|].
  rewrite IH by exact H. reflexivity.
Qed.

Lemma split_append_sep (sep : ascii) (s t : string) :
  PyStr.count sep s = 0 ->
  PyStr.split sep (s ++ String sep t) = s :: PyStr.split sep t.
Proof.
  induction s as [|c s IH]; simpl; intros H.
  - rewrite Ascii.eqb_refl. reflexivity.
  - destruct (Ascii.eqb c sep); [discriminate|].
    rewrite IH by exact H. reflexivity.
Qed.

Lemma split_join_comma (names : list string) :
  names <> [] ->
  forallb (fun n => Nat.eqb (PyStr.count ","%char n) 0) names = true ->
  PyStr.split ","%char (str_join "," names) = names.
Proof.
  induction names as [|p rest IH]; [contradiction|]. intros _ H.
  simpl in H. apply andb_true_iff in H as [Hp Hrest].
  apply Nat.eqb_eq in Hp.
  destruct rest as [|q rest].
  - simpl. apply split_no_sep. exact Hp.
  - change (str_join "," (p :: q :: rest))
      with (p ++ String ","%char (str_join "," (q :: rest))).
    rewrite split_append_sep by exact Hp.
    rewrite IH; [reflexivity | discriminate | exact Hrest].
Qed.

Lemma split_key_parts (key : string) :
  PyStr.count "."%char (fst (split_key key)) = 0 /\
  key = match snd (split_key key) with
        | Some r => fst (split_key key) ++ "." ++ r
        | None => fst (split_key key)
        end.
Proof.
  induction key as [|c key [IH1 IH2]]; simpl; [auto|].
  destruct (Ascii.eqb c ".") eqn:Ec.
  - apply Ascii.eqb_eq in Ec. subst c. simpl. auto.
  - destruct (split_key key) as [subkey remaining_key]. simpl in *.
    rewrite Ec. split; [exact IH1|].
    destruct remaining_key; simpl; congruence.
Qed.

Lemma split_key_of_parts (subkey : string) :
  PyStr.count "."%char subkey = 0 ->
  split_key subkey = (subkey, None) /\
  forall r, split_key (subkey ++ "." ++ r) = (subkey, Some r).
Proof.
  induction subkey as [|c subkey IH]; simpl; intros H; [auto|].
  destruct (Ascii.eqb c "."); [discriminate|].
  destruct (IH H) as [H1 H2]. rewrite H1. split; [reflexivity|].
  intros r. specialize (H2 r). simpl in H2. rewrite H2. reflexivity.
Qed.

(** X1: splitting a key gives a head without a dot, and the key is the
    head alone, or the head, a dot and the key that remains. *)
Theorem split_key_rebuilds :
  forall key : string,
    PyStr.count "."%char (fst (split_key key)) = 0 /\
    key = match snd (split_key key) with
          | Some remaining_key => fst (split_key key) ++ "." ++ remaining_key
          | None => fst (split_key key)
          end.
Proof.
  exact split_key_parts.
Qed.

(** X2: a head without a dot is found again: alone it is the whole key
    with nothing remaining, and followed by a dot and any text it leaves
    that text as the remaining key, dots included. *)
Theorem split_key_of_head :
  forall subkey : string,
    PyStr.count "."%char subkey = 0 ->
    split_key subkey = (subkey, None) /\
    forall remaining_key : string,
      split_key (subkey ++ "." ++ remaining_key) = (subkey, Some remaining_key).
Proof.
  exact split_key_of_parts.
Qed.

Lemma split_key_of_head_witness :
  split_key "Book*" = ("Book*", None) /\
  split_key ("Book*" ++ "." ++ "details.isbn") = ("Book*", Some "details.isbn").
Proof.
  assert (H : PyStr.count "."%char "Book*" = 0) by reflexivity.
  destruct (split_key_of_head "Book*" H) as [H1 H2].
  split; [exact H1 | exact (H2 "details.isbn")].
Defined.

Lemma classify_key (name : string) :
  PyStr.endswith name "*" = false ->
  PyStr.endswith name "]" = false ->
  classify name = Key name.
Proof.
  intros H1 H2. unfold classify. rewrite H1.
  destruct (PyStr.endswith name "[]") eqn:E.
  - apply endswith_iff in E as [pre ->].
    assert (PyStr.endswith (pre ++ "[]") "]" = true).
    { apply endswith_iff. exists (pre ++ "["). rewrite str_append_assoc.
      reflexivity. }
    congruence.
  - rewrite H2, andb_false_r. reflexivity.
Qed.

Lemma classify_multi (inner : string) :
  String.eqb inner "" = false ->
  PyStr.endswith inner "[" = false ->
  classify ("[" ++ inner ++ "]") =
  MultiKeyLeaf (PyStr.split ","%char inner).
Proof.
  intros Hne Hend. unfold classify.
  assert (Hlast : "[" ++ inner ++ "]" = ("[" ++ inner) ++ "]").
  { rewrite str_append_assoc. reflexivity. }
  rewrite Hlast.
  rewrite (endswith_last_char ("[" ++ inner) "]" "*") by discriminate.
  destruct (PyStr.endswith (("[" ++ inner) ++ "]") "[]") eqn:E.
  - exfalso. apply endswith_iff in E as [pre E].
    change "[]" with ("[" ++ "]") in E. rewrite <- str_append_assoc in E.
    apply append_last_inj in E as [E _].
    destruct pre as [|c pre]; simpl in E.
    + inversion E as [Hi]. rewrite Hi in Hne. discriminate.
    + inversion E as [[Hc Hi]].
      assert (PyStr.endswith inner "[" = true).
      { apply endswith_iff. exists pre. exact Hi. }
      congruence.
  - assert (Hs : PyStr.endswith (("[" ++ inner) ++ "]") "]" = true).
    { apply endswith_iff. exists ("[" ++ inner). reflexivity. }
    rewrite Hs. simpl PyStr.startswith. simpl andb. cbv iota.
    f_equal. f_equal.
    unfold PyStr.strip_brackets. simpl.
    rewrite PyStrFacts.append_length. simpl.
    replace (length inner + 1 - 1) with (length inner) by lia.
    apply PyStrFacts.take_append.
Qed.

(** X3: a well-formed segment written as a token is classified as that
    segment again: a prefix and a star as a wildcard key, a name and a
    pair of brackets as an array key, names joined by commas between
    brackets as a multi-key leaf, and a name that ends in neither a star
    nor a closing bracket as a plain key. *)
Theorem classify_segment_token :
  forall seg : segment,
    well_formed seg = true -> classify (segment_token seg) = seg.
Proof.
  intros [p|n|names|n] Hwf; unfold segment_token; unfold well_formed in Hwf.
  - unfold classify.
    assert (H : PyStr.endswith (p ++ "*") "*" = true).
    { apply endswith_iff. exists p. reflexivity. }
    rewrite H. f_equal. unfold PyStr.drop_last.
    rewrite PyStrFacts.append_length. simpl.
    replace (length p + 1 - 1) with (length p) by lia.
    apply PyStrFacts.take_append.
  - unfold classify.
    assert (H1 : PyStr.endswith (n ++ "[]") "*" = false).
    { change "[]" with ("[" ++ "]"). rewrite <- str_append_assoc.
      apply endswith_last_char. discriminate. }
    assert (H2 : PyStr.endswith (n ++ "[]") "[]" = true).
    { apply endswith_iff. exists n. reflexivity. }
    rewrite H1, H2. f_equal. unfold PyStr.drop_last.
    rewrite PyStrFacts.append_length. simpl.
    replace (length n + 2 - 2) with (length n) by lia.
    apply PyStrFacts.take_append.
  - apply andb_true_iff in Hwf as [Hwf Hend].
    apply andb_true_iff in Hwf as [Hwf Hne].
    apply andb_true_iff in Hwf as [Hnil Hall].
    apply negb_true_iff in Hend, Hne.
    rewrite classify_multi by assumption.
    f_equal. apply split_join_comma; [|exact Hall].
    destruct names; [discriminate | discriminate].
  - apply andb_true_iff in Hwf as [H1 H2].
    apply negb_true_iff in H1, H2. apply classify_key; assumption.
Qed.

Lemma classify_segment_token_witness :
  classify "[name,awardedAt,category,hasWon]" =
  MultiKeyLeaf ["name"; "awardedAt"; "category"; "hasWon"].
Proof.
  exact (classify_segment_token
           (MultiKeyLeaf ["name"; "awardedAt"; "category"; "hasWon"])
           eq_refl).
Defined.

End PathSyntax.

(** ** More about the matcher *)

Lemma dict_lookup_of_key (d : dict) (k : string) :
  In k (dict_keys d) -> exists v, dict_lookup d k = Some v.
Proof.
  induction d as [|[k' v'] d IH]; simpl; [contradiction|].
  intros [->|H].
  - rewrite String.eqb_refl. eauto.
  - destruct (String.eqb k' k); eauto.
Qed.

Lemma filter_nothing {A : Type} (f : A -> bool) (l : list A) :
  (forall x, In x l -> f x = false) -> filter f l = [].
Proof.
  induction l as [|a l IH]; simpl; intros H; [reflexivity|].
  rewrite (H a) by (left; reflexivity).
  apply IH. intros x Hx. apply H. right. exact Hx.
Qed.

Lemma matching_subkey_found (d : dict) (p sk : string) :
  In sk (filter (fun k => PyStr.startswith k p) (dict_keys d)) ->
  exists v, dict_lookup d sk = Some v.
Proof.
  intros H. apply filter_In in H as [H _]. apply dict_lookup_of_key, H.
Qed.

(** X4: for every mapping and every key whose head segment is a plain
    key, the matches are those of the value stored under that key, or of
    null when the mapping lacks it, under the remaining key; so a mapping
    that lacks the key yields nothing. *)
Theorem visit_path_plain_key :
  forall (d : dict) (k name : string) (remaining_key : option string),
    key_splits k (Key name) remaining_key ->
    visit_path (JDict d) (Some k) =
    visit_path (dict_get d name JNull) remaining_key /\
    (dict_lookup d name = None ->
     visit_path (JDict d) (Some k) = ([], Returned)).
Proof.
  intros d k name remaining_key Hk.
  assert (H : visit_path (JDict d) (Some k) =
              visit_path (dict_get d name JNull) remaining_key).
  { destruct d as [|kv d].
    - rewrite (visit_path_falsy (JDict [])) by reflexivity.
      symmetry. apply visit_path_falsy. reflexivity.
    - rewrite (visit_path_segment _ _ _ _ Hk) by reflexivity. reflexivity. }
  split; [exact H|].
  intros Hnone. rewrite H. unfold dict_get. rewrite Hnone.
  apply visit_path_falsy. reflexivity.
Qed.

Lemma visit_path_plain_key_witness :
  visit_path (JDict abc_mapping) (Some "b") = ([JInt 2], Returned).
Proof.
  assert (Hk : key_splits "b" (Key "b") None).
  { split; [reflexivity|]. exists "b". split; reflexivity. }
  rewrite (proj1 (visit_path_plain_key abc_mapping "b" "b" None Hk)).
  reflexivity.
Defined.

(** X5: for every mapping and every key whose head segment is a wildcard
    key, the run is the loop over the mapping's keys that start with the
    prefix, in the mapping's own key order, each contributing the matches
    of its value under the remaining key; a mapping with no such key
    yields nothing. *)
Theorem visit_path_wildcard_key :
  forall (d : dict) (k subkey_prefix : string) (remaining_key : option string),
    key_splits k (WildcardKey subkey_prefix) remaining_key ->
    visit_path (JDict d) (Some k) =
    yield_from_each
      (fun sk => visit_path (dict_get d sk JNull) remaining_key)
      (filter (fun sk => PyStr.startswith sk subkey_prefix) (dict_keys d)) /\
    ((forall sk, In sk (dict_keys d) ->
                 PyStr.startswith sk subkey_prefix = false) ->
     visit_path (JDict d) (Some k) = ([], Returned)).
Proof.
  intros d k p remaining_key Hk.
  assert (H : visit_path (JDict d) (Some k) =
              yield_from_each
                (fun sk => visit_path (dict_get d sk JNull) remaining_key)
                (filter (fun sk => PyStr.startswith sk p) (dict_keys d))).
  { destruct d as [|kv d]; [reflexivity|].
    rewrite (visit_path_segment _ _ _ _ Hk) by reflexivity.
    unfold visit_segment. apply yield_from_each_ext.
    intros sk Hsk. apply matching_subkey_found in Hsk as [v Hv].
    unfold dict_get. rewrite Hv. reflexivity. }
  split; [exact H|].
  intros Hnone. rewrite H.
  rewrite (filter_nothing _ _ Hnone). reflexivity.
Qed.

Lemma visit_path_wildcard_key_witness :
  visit_path (JDict abc_mapping) (Some "z*.x") = ([], Returned).
Proof.
  assert (Hk : key_splits "z*.x" (WildcardKey "z") (Some "x")).
  { split; [reflexivity|]. exists "z*". split; reflexivity. }
  apply (proj2 (visit_path_wildcard_key abc_mapping "z*.x" "z" (Some "x") Hk)).
  intros sk [<-|[<-|[<-|[]]]]; reflexivity.
Defined.

Lemma visit_segment_matcher_ending (visit : json -> gen) (data : json)
      (seg : segment) :
  (forall x, matcher_ending (ending (visit x))) ->
  matcher_ending (ending (visit_segment visit data seg)).
Proof.
  intros Hvisit. unfold matcher_ending in *.
  destruct seg, data; simpl; auto.
  - match goal with |- context [yield_from_each ?f ?xs] =>
      destruct (yield_from_each_ending f xs) as [E|[sk [Hin E]]] end.
    + auto.
    + rewrite <- E. apply matching_subkey_found in Hin as [v Hv].
      rewrite Hv. apply Hvisit.
  - destruct (py_iter (dict_get d name (JList []))); simpl; auto.
    match goal with |- context [yield_from_each ?f ?xs] =>
      destruct (yield_from_each_ending f xs) as [E|[x [_ E]]] end.
    + auto.
    + rewrite <- E. apply Hvisit.
Qed.

Lemma visit_path_depth_matcher_ending (depth : nat) :
  forall (data : json) (key : option string),
    segments key < depth ->
    matcher_ending (ending (visit_path_depth depth data key)).
Proof.
  induction depth as [|depth IH]; intros data key H; [lia|]. simpl.
  destruct (negb (truthy data)); [left; reflexivity|].
  destruct key as [k|]; [|left; reflexivity].
  destruct (String.eqb k "") eqn:Ek; [left; reflexivity|].
  destruct (split_key k) as [subkey remaining_key] eqn:Es.
  pose proof (split_key_segments _ _ _ Ek Es) as Hlt.
  apply visit_segment_matcher_ending. intros x. apply IH. lia.
Qed.

(** X6: whatever the value and the key, the matcher returns, or raises an
    AttributeError or a TypeError; it never raises a KeyError: every key a
    wildcard looks up is a key of the mapping. *)
Theorem visit_path_endings :
  forall (data : json) (key : option string),
    ending (visit_path data key) = Returned \/
    ending (visit_path data key) = Raised AttributeError \/
    ending (visit_path data key) = Raised TypeError.
Proof.
  intros data key. apply visit_path_depth_matcher_ending. lia.
Qed.

(** X7: an array key whose name is bound to null, a boolean or a number
    raises a TypeError and yields nothing, where an absent name yields
    nothing and returns. *)
Theorem visit_path_array_key_not_iterable :
  forall (d : dict) (k name : string) (remaining_key : option string)
         (values : json),
    key_splits k (ArrayKey name) remaining_key ->
    dict_lookup d name = Some values ->
    py_iter values = None ->
    visit_path (JDict d) (Some k) = ([], Raised TypeError).
Proof.
  intros d k name remaining_key values Hk Hl Hi.
  destruct d as [|kv d]; [discriminate|].
  rewrite (visit_path_segment _ _ _ _ Hk) by reflexivity.
  unfold visit_segment, dict_get. rewrite Hl, Hi. reflexivity.
Qed.

Lemma visit_path_array_key_not_iterable_witness :
  visit_path (JDict abc_mapping) (Some "c[].name") = ([], Raised TypeError).
Proof.
  assert (Hk : key_splits "c[].name" (ArrayKey "c") (Some "name")).
  { split; [reflexivity|]. exists "c[]". split; reflexivity. }
  exact (visit_path_array_key_not_iterable
           abc_mapping "c[].name" "c" (Some "name") JNull
           Hk eq_refl eq_refl).
Defined.

(** X8: a key without wildcard and array segments (plain keys, possibly
    closed by a multi-key leaf) yields at most one value, whatever the
    document. *)
Theorem visit_path_single_valued :
  forall key : option string,
    single_valued key ->
    forall data : json, List.length (yields (visit_path data key)) <= 1.
Proof.
  intros key Hsv. induction Hsv as [| |k name rem Hk Hsv IH|k subkeys rem Hk];
    intros data.
  - rewrite visit_path_unfold. destruct (negb (truthy data)); simpl; lia.
  - rewrite visit_path_unfold. destruct (negb (truthy data)); simpl; lia.
  - destruct (truthy data) eqn:Ht.
    + rewrite (visit_path_segment _ _ _ _ Hk Ht).
      destruct data; simpl; try lia. apply IH.
    + rewrite visit_path_falsy by exact Ht. simpl. lia.
  - destruct (truthy data) eqn:Ht.
    + rewrite (visit_path_segment _ _ _ _ Hk Ht).
      destruct data; simpl; lia.
    + rewrite visit_path_falsy by exact Ht. simpl. lia.
Qed.

Lemma visit_path_single_valued_witness :
  List.length (yields (visit_path (JDict abc_mapping) (Some "a.b"))) <= 1.
Proof.
  assert (Hb : key_splits "b" (Key "b") None).
  { split; [reflexivity|]. exists "b". split; reflexivity. }
  assert (Ha : key_splits "a.b" (Key "a") (Some "b")).
  { split; [reflexivity|]. exists "a". split; reflexivity. }
  exact (visit_path_single_valued (Some "a.b")
           (sv_key "a.b" "a" (Some "b") Ha (sv_key "b" "b" None Hb sv_none))
           (JDict abc_mapping)).
Defined.

(** ** More about the text normalizer *)

Section NormalizerShape.

Local Open Scope string_scope.

Lemma take_min_length (n : nat) (s : string) :
  PyStr.take (Nat.min n (length s)) s = PyStr.take n s.
Proof.
  destruct (Nat.le_gt_cases n (length s)) as [H|H].
  - rewrite Nat.min_l by exact H. reflexivity.
  - rewrite Nat.min_r by lia.
    rewrite !PyStrFacts.take_all by lia. reflexivity.
Qed.

(** X9: a text of fewer than 102 characters is returned unchanged: below
    100 by the first test, and at 100 and 101 because no signature of more
    than 50 characters fits twice. *)
Theorem deduplicate_text_under_102 :
  forall text : string,
    length text < 102 -> deduplicate_text text = text.
Proof.
  intros text H. apply deduplicate_text_short. exact H.
Qed.

Lemma deduplicate_text_under_102_witness :
  deduplicate_text (PyStr.replicate 101 "a"%char) = PyStr.replicate 101 "a"%char.
Proof.
  apply deduplicate_text_under_102.
  rewrite PyStrFacts.replicate_length. lia.
Defined.

(** X10: when the normalizer cuts, it keeps more than 50 characters, and
    what it drops begins with a copy of the first 100 characters of what
    it keeps (of all of it, when it keeps fewer than 100). *)
Theorem deduplicate_text_cut :
  forall text : string,
    deduplicate_text text <> text ->
    exists rest : string,
      text = deduplicate_text text ++ rest /\
      50 < length (deduplicate_text text) /\
      PyStr.startswith rest (PyStr.take 100 (deduplicate_text text)) = true.
Proof.
  intros text Hcut.
  destruct (deduplicate_text_cases text) as [H|[s [Hs [Hl H]]]];
    [contradiction|].
  apply first_split_some in Hs as [_ [Hs _]].
  exists (PyStr.drop s text). rewrite H.
  unfold signature_test in Hs. apply andb_true_iff in Hs as [H1 H2].
  apply Nat.ltb_lt in H1. rewrite take_min_length in H2.
  split; [symmetry; apply take_drop|]. split; [lia | exact H2].
Qed.

Lemma deduplicate_text_cut_witness :
  exists rest : string,
    sixty_a ++ sixty_a = deduplicate_text (sixty_a ++ sixty_a) ++ rest /\
    50 < length (deduplicate_text (sixty_a ++ sixty_a)).
Proof.
  assert (H : deduplicate_text (sixty_a ++ sixty_a) <> sixty_a ++ sixty_a).
  { intros E. apply (f_equal length) in E. vm_compute in E. discriminate. }
  destruct (deduplicate_text_cut (sixty_a ++ sixty_a) H) as [rest [H1 [H2 _]]].
  exists rest. split; [exact H1 | exact H2].
Defined.

End NormalizerShape.

(** ** The line helpers *)

Section Lines.

Local Open Scope string_scope.

Lemma str_join_cons (sep : string) (c : ascii) (w : string) (ws : list string) :
  str_join sep (String c w :: ws) = String c (str_join sep (w :: ws)).
Proof.
  destruct ws; reflexivity.
Qed.

Lemma split_join (sep : ascii) (s : string) :
  str_join (String sep "") (PyStr.split sep s) = s.
Proof.
  induction s as [|c s IH]; [reflexivity|]. simpl PyStr.split.
  destruct (Ascii.eqb c sep) eqn:Ec.
  - apply Ascii.eqb_eq in Ec. subst c.
    pose proof (PyStrFacts.split_not_nil sep s) as Hn.
    destruct (PyStr.split sep s) as [|w ws] eqn:E; [contradiction|].
    change (str_join (String sep "") ("" :: w :: ws))
      with (String sep (str_join (String sep "") (w :: ws))).
    rewrite IH. reflexivity.
  - pose proof (PyStrFacts.split_not_nil sep s) as Hn.
    destruct (PyStr.split sep s) as [|w ws] eqn:E; [contradiction|].
    rewrite str_join_cons, IH. reflexivity.
Qed.

Lemma split_pieces (sep : ascii) (s : string) :
  Forall (fun p => PyStr.count sep p = 0) (PyStr.split sep s) /\
  List.length (PyStr.split sep s) = S (PyStr.count sep s).
Proof.
  induction s as [|c s [IH1 IH2]]; simpl.
  - split; [repeat constructor | reflexivity].
  - rewrite (Ascii.eqb_sym c sep) in *.
    destruct (Ascii.eqb sep c) eqn:Ec.
    + split; [constructor; [reflexivity | exact IH1] | simpl; lia].
    + destruct (PyStr.split sep s) as [|w ws]; [discriminate|].
      inversion IH1 as [|? ? Hw Hws]; subst.
      split; [|simpl in *; lia].
      constructor; [|exact Hws]. simpl.
      rewrite (Ascii.eqb_sym c sep), Ec. exact Hw.
Qed.

(** X11: the lines of a text, joined by newlines, give the text back;
    no line holds a newline, and there is one line more than there are
    newlines in the text (so one line, the empty one, for the empty
    text). *)
Theorem split_by_newline_joins_back :
  forall txt : string,
    str_join nl (split_by_newline txt) = txt /\
    Forall (fun line => PyStr.count "010"%char line = 0) (split_by_newline txt) /\
    List.length (split_by_newline txt) = S (PyStr.count "010"%char txt).
Proof.
  intros txt. unfold split_by_newline, nl. split.
  - apply split_join.
  - apply split_pieces.
Qed.

Lemma lstrip_clean (s : string) : starts_clean (lstrip s) = true.
Proof.
  induction s as [|c s IH]; simpl; [reflexivity|].
  destruct (is_space c) eqn:E; [exact IH|]. simpl. rewrite E. reflexivity.
Qed.

Lemma lstrip_fixed (s : string) : starts_clean s = true -> lstrip s = s.
Proof.
  destruct s as [|c s]; simpl; [reflexivity|].
  intros H. apply negb_true_iff in H. rewrite H. reflexivity.
Qed.

Lemma rstrip_cons (c : ascii) (s : string) :
  rstrip s <> "" -> rstrip (String c s) = String c (rstrip s).
Proof.
  simpl. destruct (rstrip s); [contradiction | reflexivity].
Qed.

Lemma rstrip_rstrip (s : string) : rstrip (rstrip s) = rstrip s.
Proof.
  induction s as [|c s IH]; [reflexivity|].
  destruct (rstrip s) as [|d r] eqn:E.
  - simpl. rewrite E.
    destruct (is_space c) eqn:Ec; simpl; [reflexivity|].
    rewrite Ec. reflexivity.
  - rewrite (rstrip_cons c s) by (rewrite E; discriminate).
    rewrite E. rewrite (rstrip_cons c (String d r)); rewrite IH;
      [reflexivity | discriminate].
Qed.

Lemma rstrip_keeps_start (s : string) :
  starts_clean s = true -> starts_clean (rstrip s) = true.
Proof.
  destruct s as [|c s]; simpl; [reflexivity|].
  intros H. destruct (rstrip s); simpl.
  - apply negb_true_iff in H. rewrite H. simpl. rewrite H. reflexivity.
  - exact H.
Qed.

Lemma strip_strip (s : string) : strip (strip s) = strip s.
Proof.
  unfold strip.
  rewrite (lstrip_fixed (rstrip (lstrip s))).
  - apply rstrip_rstrip.
  - apply rstrip_keeps_start, lstrip_clean.
Qed.

Lemma filter_empty_cons (v : string) (vals : list string) :
  filter_empty (v :: vals) =
  if String.eqb (strip v) "" then filter_empty vals
  else strip v :: filter_empty vals.
Proof.
  unfold filter_empty. simpl. destruct (String.eqb (strip v) ""); reflexivity.
Qed.

(** X12: every line [filter_empty] returns is the stripped form of one of
    the input lines, is not empty, and has no white space left at either
    end. *)
Theorem filter_empty_lines :
  forall (vals : list string) (v : string),
    In v (filter_empty vals) ->
    (exists w, In w vals /\ v = strip w) /\
    v <> "" /\
    strip v = v.
Proof.
  intros vals v H. unfold filter_empty in H.
  apply in_map_iff in H as [w [Hv Hw]].
  apply filter_In in Hw as [Hin Hne]. subst v.
  split; [exists w; auto|]. split.
  - intros E. rewrite E in Hne. discriminate.
  - apply strip_strip.
Qed.

Lemma filter_empty_lines_witness :
  strip "Born in Tacoma" = "Born in Tacoma".
Proof.
  assert (H : In "Born in Tacoma"
                 (filter_empty ["   "; "  Born in Tacoma " ; ""])).
  { vm_compute. left. reflexivity. }
  exact (proj2 (proj2 (filter_empty_lines _ _ H))).
Defined.

(** X13: [filter_empty] applied to its own result changes nothing. *)
Theorem filter_empty_idempotent :
  forall vals : list string,
    filter_empty (filter_empty vals) = filter_empty vals.
Proof.
  induction vals as [|v vals IH]; [reflexivity|].
  rewrite filter_empty_cons.
  destruct (String.eqb (strip v) "") eqn:E; [exact IH|].
  rewrite filter_empty_cons, strip_strip, E, IH. reflexivity.
Qed.

End Lines.

(** ** Contributors with their roles *)

(** Take apart a chain of binds that is known to end well. *)
Ltac bind_ok H :=
  match type of H with
  | bind ?c _ = Ok _ =>
      let E := fresh "E" in
      destruct c eqn:E; simpl in H; [|discriminate]
  end.

Lemma py_in_dict_true (k : json) (d : dict) :
  py_in_dict k d = Ok true -> exists v, py_getitem d k = Ok v.
Proof.
  destruct k; simpl; try discriminate.
  destruct (dict_lookup d s); [eauto | discriminate].
Qed.

(** One edge leaves the contributors as they are or adds one record at the
    end. *)
Lemma add_contributor_ok (apollo_state : dict) (edge : json)
      (contributors contributors' : list json) :
  add_contributor apollo_state edge contributors = Ok contributors' ->
  contributors' = contributors \/
  exists c, is_contributor c /\ contributors' = contributors ++ [c].
Proof.
  unfold add_contributor. intros H.
  bind_ok H. bind_ok H.
  destruct (truthy a0); [|inversion H; auto].
  bind_ok H. destruct a1; [|inversion H; auto].
  bind_ok H. bind_ok H.
  destruct (truthy a2) eqn:Ht; [|inversion H; auto].
  bind_ok H. inversion H. right.
  exists (JDict [("name", a2); ("role", a3)]). split; [|reflexivity].
  exists a2, a3. auto.
Qed.

Lemma add_contributor_keeps (apollo_state : dict) (edge : json)
      (contributors contributors' : list json) :
  add_contributor apollo_state edge contributors = Ok contributors' ->
  Forall is_contributor contributors ->
  Forall is_contributor contributors'.
Proof.
  intros H Hall. apply add_contributor_ok in H as [->|[c [Hc ->]]]; auto.
  apply Forall_app. auto.
Qed.

Lemma add_contributors_keeps (apollo_state : dict) (edges : list json) :
  forall contributors contributors' : list json,
    add_contributors apollo_state edges contributors = Ok contributors' ->
    Forall is_contributor contributors ->
    Forall is_contributor contributors'.
Proof.
  induction edges as [|edge edges IH]; simpl; intros cs cs' H Hall.
  - inversion H; subst; exact Hall.
  - bind_ok H. eapply IH; [exact H|].
    eapply add_contributor_keeps; eassumption.
Qed.

Lemma book_contributors_keeps (apollo_state : dict) (book_key : string)
      (contributors contributors' : list json) :
  book_contributors apollo_state book_key contributors = Ok contributors' ->
  Forall is_contributor contributors ->
  Forall is_contributor contributors'.
Proof.
  unfold book_contributors. intros H Hall.
  bind_ok H. bind_ok H. bind_ok H. bind_ok H.
  destruct (py_iter a2); [|discriminate].
  eapply add_contributors_keeps; [exact H|].
  destruct (truthy a0).
  - eapply add_contributor_keeps; eassumption.
  - inversion E1; subst; exact Hall.
Qed.

Lemma books_contributors_keeps (apollo_state : dict) (book_keys : list string) :
  forall contributors contributors' : list json,
    books_contributors apollo_state book_keys contributors = Ok contributors' ->
    Forall is_contributor contributors ->
    Forall is_contributor contributors'.
Proof.
  induction book_keys as [|book_key book_keys IH]; simpl; intros cs cs' H Hall.
  - inversion H; subst; exact Hall.
  - bind_ok H. eapply IH; [exact H|].
    eapply book_contributors_keeps; eassumption.
Qed.

(** X14: when the extraction succeeds, its result is the empty list or a
    list holding one non-empty list of records; each record has exactly
    the keys name and role, in that order, and a truthy name. *)
Theorem extract_contributors_shape :
  forall (data : json) (found : list json),
    extract_contributors_with_roles data = Ok found ->
    found = [] \/
    exists contributors : list json,
      found = [JList contributors] /\
      contributors <> [] /\
      Forall is_contributor contributors.
Proof.
  unfold extract_contributors_with_roles. intros data found H.
  bind_ok H. destruct a; try discriminate.
  bind_ok H. inversion H.
  destruct a as [|c cs]; [left; reflexivity|].
  right. exists (c :: cs). split; [reflexivity|]. split; [discriminate|].
  eapply books_contributors_keeps; [exact E0 | constructor].
Qed.

Lemma extract_contributors_shape_witness :
  exists contributors : list json,
    extract_contributors_with_roles sample_document = Ok [JList contributors] /\
    Forall is_contributor contributors.
Proof.
  assert (H : extract_contributors_with_roles sample_document =
              Ok [JList [JDict [("name", JStr "Frank Herbert");
                                ("role", JStr "Author")];
                         JDict [("name", JStr "Brian Herbert");
                                ("role", JStr "Unknown")]]])
    by reflexivity.
  destruct (extract_contributors_shape _ _ H) as [E|[cs [E [_ Hall]]]];
    [discriminate|].
  exists cs. rewrite H, E. split; [reflexivity | exact Hall].
Defined.

(** X15: a document whose state map has no key that starts with [Book:]
    gives the empty list. *)
Theorem extract_contributors_no_book :
  forall (data : json) (apollo_state : dict),
    apollo_state_of data = Ok (JDict apollo_state) ->
    (forall k, In k (dict_keys apollo_state) ->
               PyStr.startswith k "Book:" = false) ->
    extract_contributors_with_roles data = Ok [].
Proof.
  intros data apollo_state H Hnone.
  unfold extract_contributors_with_roles. rewrite H. cbn [bind].
  rewrite (filter_nothing _ _ Hnone). reflexivity.
Qed.

Lemma extract_contributors_no_book_witness :
  extract_contributors_with_roles
    (JDict [("props",
             JDict [("pageProps",
                     JDict [("apolloState",
                             JDict [("Work:1", JDict [])])])])]) = Ok [].
Proof.
  apply (extract_contributors_no_book _ [("Work:1", JDict [])]).
  - reflexivity.
  - intros k [<-|[]]. reflexivity.
Defined.

(** X16: a mapping that lacks [props], or whose [props] lacks
    [pageProps], or whose [pageProps] lacks [apolloState], gives the empty
    list: each missing level is read as an empty mapping. *)
Theorem extract_contributors_absent :
  forall d : dict,
    (dict_lookup d "props" = None ->
     extract_contributors_with_roles (JDict d) = Ok []) /\
    (forall p,
        dict_lookup d "props" = Some (JDict p) ->
        dict_lookup p "pageProps" = None ->
        extract_contributors_with_roles (JDict d) = Ok []) /\
    (forall p q,
        dict_lookup d "props" = Some (JDict p) ->
        dict_lookup p "pageProps" = Some (JDict q) ->
        dict_lookup q "apolloState" = None ->
        extract_contributors_with_roles (JDict d) = Ok []).
Proof.
  intros d.
  unfold extract_contributors_with_roles, apollo_state_of, py_get, dict_get.
  split; [|split].
  - intros ->. reflexivity.
  - intros p -> H. simpl. rewrite H. reflexivity.
  - intros p q -> H1 H2. simpl. rewrite H1. simpl. rewrite H2. reflexivity.
Qed.

Lemma extract_contributors_absent_witness :
  extract_contributors_with_roles (JDict [("other", JInt 1)]) = Ok [].
Proof.
  exact (proj1 (extract_contributors_absent [("other", JInt 1)]) eq_refl).
Defined.

(** X17: a document that is not a mapping, or whose [props] is present but
    is not a mapping (null, for one), raises an AttributeError: the
    default of [.get] stands in for a missing key only. *)
Theorem extract_contributors_not_mapping :
  forall data : json,
    (is_dict data = false ->
     extract_contributors_with_roles data = Error AttributeError) /\
    (forall d v,
        data = JDict d ->
        dict_lookup d "props" = Some v ->
        is_dict v = false ->
        extract_contributors_with_roles data = Error AttributeError).
Proof.
  intros data. split.
  - intros H. destruct data; try discriminate; reflexivity.
  - intros d v -> Hl Hv.
    unfold extract_contributors_with_roles, apollo_state_of, py_get, dict_get.
    rewrite Hl. destruct v; try discriminate; reflexivity.
Qed.

Lemma extract_contributors_not_mapping_witness :
  extract_contributors_with_roles (JDict [("props", JNull)]) =
  Error AttributeError.
Proof.
  exact (proj2 (extract_contributors_not_mapping (JDict [("props", JNull)]))
               [("props", JNull)] JNull eq_refl eq_refl eq_refl).
Defined.

Lemma py_get_error (v : json) (k : string) (default : json) (e : exn) :
  py_get v k default = Error e -> e = AttributeError.
Proof.
  destruct v; simpl; intros H; inversion H; reflexivity.
Qed.

Lemma py_in_dict_error (k : json) (d : dict) (e : exn) :
  py_in_dict k d = Error e -> e = TypeError.
Proof.
  destruct k; simpl; intros H; inversion H; reflexivity.
Qed.

(** Take apart a chain of binds that is known to fail: either the head
    fails, or it succeeds and the rest fails. *)
Ltac bind_error H E :=
  match type of H with
  | bind ?c _ = Error _ =>
      destruct c eqn:E; simpl in H; [|inversion H; subst; clear H]
  end.

Lemma add_contributor_error (apollo_state : dict) (edge : json)
      (contributors : list json) (e : exn) :
  add_contributor apollo_state edge contributors = Error e ->
  e = AttributeError \/ e = TypeError.
Proof.
  unfold add_contributor. intros H.
  bind_error H E1; [|left; eapply py_get_error; eassumption].
  bind_error H E2; [|left; eapply py_get_error; eassumption].
  destruct (truthy a0); [|discriminate].
  bind_error H E3; [|right; eapply py_in_dict_error; eassumption].
  destruct a1; [|discriminate].
  apply py_in_dict_true in E3 as [v Hv]. rewrite Hv in H. simpl in H.
  bind_error H E4; [|left; eapply py_get_error; eassumption].
  destruct (truthy a1); [|discriminate].
  bind_error H E5; [discriminate|left; eapply py_get_error; eassumption].
Qed.

Lemma add_contributors_error (apollo_state : dict) (edges : list json) :
  forall (contributors : list json) (e : exn),
    add_contributors apollo_state edges contributors = Error e ->
    e = AttributeError \/ e = TypeError.
Proof.
  induction edges as [|edge edges IH]; simpl; intros cs e H; [discriminate|].
  bind_error H E1; [eapply IH; eassumption|].
  eapply add_contributor_error; eassumption.
Qed.

Lemma book_contributors_error (apollo_state : dict) (book_key : string)
      (contributors : list json) (e : exn) :
  In book_key (dict_keys apollo_state) ->
  book_contributors apollo_state book_key contributors = Error e ->
  e = AttributeError \/ e = TypeError.
Proof.
  unfold book_contributors. intros Hin H.
  apply dict_lookup_of_key in Hin as [book Hbook].
  simpl in H. rewrite Hbook in H. simpl in H.
  bind_error H E1; [|left; eapply py_get_error; eassumption].
  bind_error H E2.
  - bind_error H E3; [|left; eapply py_get_error; eassumption].
    destruct (py_iter a1).
    + eapply add_contributors_error; eassumption.
    + inversion H. auto.
  - destruct (truthy a); [|discriminate].
    eapply add_contributor_error; eassumption.
Qed.

Lemma books_contributors_error (apollo_state : dict) (book_keys : list string) :
  forall (contributors : list json) (e : exn),
    (forall k, In k book_keys -> In k (dict_keys apollo_state)) ->
    books_contributors apollo_state book_keys contributors = Error e ->
    e = AttributeError \/ e = TypeError.
Proof.
  induction book_keys as [|book_key book_keys IH]; simpl; intros cs e Hin H;
    [discriminate|].
  bind_error H E1.
  - eapply IH; [|eassumption]. auto.
  - eapply book_contributors_error; [|eassumption]. auto.
Qed.

(** X18: when the extraction fails, it fails with an AttributeError or a
    TypeError, never with a KeyError: every key it indexes the state map
    with has been found in it first. *)
Theorem extract_contributors_errors :
  forall (data : json) (e : exn),
    extract_contributors_with_roles data = Error e ->
    e = AttributeError \/ e = TypeError.
Proof.
  unfold extract_contributors_with_roles. intros data e H.
  bind_error H E1.
  - destruct a; try (inversion H; auto; fail).
    bind_error H E2; [discriminate|].
    eapply books_contributors_error; [|eassumption].
    intros k Hk. apply filter_In in Hk as [Hk _]. exact Hk.
  - unfold apollo_state_of in E1.
    bind_error E1 E2; [|left; eapply py_get_error; eassumption].
    bind_error E1 E3; [|left; eapply py_get_error; eassumption].
    left; eapply py_get_error; eassumption.
Qed.

Lemma extract_contributors_errors_witness :
  AttributeError = AttributeError \/ AttributeError = TypeError.
Proof.
  exact (extract_contributors_errors (JDict [("props", JNull)])
                                     AttributeError eq_refl).
Defined.

(** ** More about the batch merge *)

Lemma snoc_split {A : Type} (l l1 l2 : list A) (a u : A) :
  l ++ [a] = l1 ++ u :: l2 ->
  (l2 = [] /\ l = l1 /\ a = u) \/
  (exists l2', l2 = l2' ++ [a] /\ l = l1 ++ u :: l2').
Proof.
  intros H. destruct l2 as [|x l2].
  - apply app_inj_tail in H as [H1 H2]. auto.
  - right. destruct (exists_last (l := x :: l2)) as [l' [a' E]];
      [discriminate|].
    rewrite E in H. rewrite app_comm_cons, app_assoc in H.
    apply app_inj_tail in H as [H1 H2]. subst a'.
    exists l'. split; [exact E | exact H1].
Qed.

Lemma no_repeat_snoc (urls : list json) (url : json) :
  no_repeat urls -> set_mem url urls = false -> no_repeat (urls ++ [url]).
Proof.
  intros Hn Hm before u after E.
  apply snoc_split in E as [[_ [-> ->]]|[l2' [_ ->]]].
  - exact Hm.
  - eapply Hn. reflexivity.
Qed.

Lemma subsequence_refl {A : Type} (l : list A) : subsequence l l.
Proof.
  induction l; constructor; assumption.
Qed.

Lemma subsequence_app {A : Type} (a b c d : list A) :
  subsequence a b -> subsequence c d -> subsequence (a ++ c) (b ++ d).
Proof.
  intros H1 H2. induction H1; simpl.
  - induction l; simpl; [exact H2 | constructor; assumption].
  - constructor; assumption.
  - constructor; assumption.
Qed.

Section MergeMore.

Variable json_loads : string -> option json.

(** What one line does to the state when the loop goes on. *)
Lemma process_line_ok (filename : string) (st st' : merge_state)
      (line : string) :
  process_line json_loads filename st line = Ok st' ->
  (json_loads (strip line) = None /\
   seen_urls st' = seen_urls st /\ unique_items st' = unique_items st) \/
  (exists d, json_loads (strip line) = Some (JDict d) /\
             diagnostics st' = diagnostics st /\
             ((truthy (dict_get d "url" JNull) = true /\
               hashable (dict_get d "url" JNull) = true /\
               set_mem (dict_get d "url" JNull) (seen_urls st) = false /\
               seen_urls st' = seen_urls st ++ [dict_get d "url" JNull] /\
               unique_items st' = unique_items st ++ [JDict d]) \/
              ((truthy (dict_get d "url" JNull) = false \/
                set_mem (dict_get d "url" JNull) (seen_urls st) = true) /\
               (truthy (dict_get d "url" JNull) = true ->
                hashable (dict_get d "url" JNull) = true) /\
               st' = st))).
Proof.
  unfold process_line. intros H.
  destruct (json_loads (strip line)) as [item|].
  - right. destruct item; try discriminate. exists d. split; [reflexivity|].
    destruct (truthy (dict_get d "url" JNull)) eqn:Ht.
    + destruct (hashable (dict_get d "url" JNull)) eqn:Hh; [|discriminate].
      destruct (set_mem (dict_get d "url" JNull) (seen_urls st)) eqn:Hm;
        simpl in H; inversion H; subst; simpl.
      * split; [reflexivity|]. right. auto.
      * split; [reflexivity|]. left. auto.
    + inversion H; subst. split; [reflexivity|]. right.
      split; [auto|]. split; [discriminate | reflexivity].
  - left. inversion H; subst; simpl. auto.
Qed.

Lemma process_lines_app (filename : string) (l1 l2 : list string) :
  forall st : merge_state,
    process_lines json_loads filename st (l1 ++ l2) =
    match process_lines json_loads filename st l1 with
    | Ok st' => process_lines json_loads filename st' l2
    | Error e => Error e
    end.
Proof.
  induction l1 as [|l l1 IH]; simpl; intros st; [reflexivity|].
  destruct (process_line json_loads filename st l); [apply IH | reflexivity].
Qed.

Lemma process_files_app (fs1 fs2 : list (string * list string)) :
  forall st : merge_state,
    process_files json_loads st (fs1 ++ fs2) =
    match process_files json_loads st fs1 with
    | Ok st' => process_files json_loads st' fs2
    | Error e => Error e
    end.
Proof.
  induction fs1 as [|[f lines] fs1 IH]; simpl; intros st; [reflexivity|].
  destruct (process_lines json_loads f st lines); [apply IH | reflexivity].
Qed.

(** The file name and the diagnostics have no part in what is kept. *)
Lemma process_lines_same (f f' : string) (lines : list string) :
  forall st st' : merge_state,
    same_items st st' ->
    same_outcome (process_lines json_loads f st lines)
                 (process_lines json_loads f' st' lines).
Proof.
  induction lines as [|l lines IH]; simpl; intros st st' Hs; [exact Hs|].
  unfold process_line. destruct Hs as [Hseen Huniq].
  destruct (json_loads (strip l)) as [item|].
  - destruct item; simpl; try reflexivity.
    rewrite <- Hseen, <- Huniq.
    destruct (truthy (dict_get d "url" JNull)).
    + destruct (hashable (dict_get d "url" JNull)); [|simpl; reflexivity].
      destruct (negb (set_mem (dict_get d "url" JNull) (seen_urls st))).
      * apply IH. split; reflexivity.
      * apply IH. split; assumption.
    + apply IH. split; assumption.
  - apply IH. split; assumption.
Qed.

Lemma process_files_one_file (name : string)
      (files : list (string * list string)) :
  forall st st' : merge_state,
    same_items st st' ->
    same_outcome (process_files json_loads st files)
                 (process_lines json_loads name st' (all_lines files)).
Proof.
  induction files as [|[f lines] files IH]; intros st st' Hs.
  - exact Hs.
  - unfold all_lines. simpl. fold (all_lines files).
    rewrite process_lines_app.
    pose proof (process_lines_same f name lines st st' Hs) as H.
    destruct (process_lines json_loads f st lines) as [m|e],
             (process_lines json_loads name st' lines) as [m'|e'];
      simpl in H; try contradiction.
    + apply IH. exact H.
    + exact H.
Qed.

Lemma process_line_invariant (filename : string) (st st' : merge_state)
      (line : string) :
  process_line json_loads filename st line = Ok st' ->
  merge_invariant st -> merge_invariant st'.
Proof.
  intros H [I1 [I2 I3]].
  apply process_line_ok in H
    as [[_ [Hs Hu]]|[d [_ [_ [[Ht [Hh [Hm [Hs Hu]]]]|[_ [_ ->]]]]]]].
  - unfold merge_invariant. rewrite Hs, Hu. auto.
  - unfold merge_invariant. rewrite Hs, Hu. split; [|split].
    + rewrite map_app, I1. reflexivity.
    + apply Forall_app. split; [exact I2|].
      constructor; [|constructor]. repeat split; assumption.
    + apply no_repeat_snoc; assumption.
  - repeat split; assumption.
Qed.

Lemma process_lines_invariant (filename : string) (lines : list string) :
  forall st st' : merge_state,
    process_lines json_loads filename st lines = Ok st' ->
    merge_invariant st -> merge_invariant st'.
Proof.
  induction lines as [|l lines IH]; simpl; intros st st' H Hi.
  - inversion H; subst; exact Hi.
  - destruct (process_line json_loads filename st l) as [m|] eqn:E;
      [|discriminate].
    eapply IH; [exact H|]. eapply process_line_invariant; eassumption.
Qed.

Lemma process_files_invariant (files : list (string * list string)) :
  forall st st' : merge_state,
    process_files json_loads st files = Ok st' ->
    merge_invariant st -> merge_invariant st'.
Proof.
  induction files as [|[f lines] files IH]; simpl; intros st st' H Hi.
  - inversion H; subst; exact Hi.
  - destruct (process_lines json_loads f st lines) as [m|] eqn:E;
      [|discriminate].
    eapply IH; [exact H|]. eapply process_lines_invariant; eassumption.
Qed.

End MergeMore.

Section MergeOrder.

Variable json_loads : string -> option json.

Lemma decoded_items_cons (l : string) (lines : list string) :
  decoded_items json_loads (l :: lines) =
  match json_loads (strip l) with
  | Some v => v :: decoded_items json_loads lines
  | None => decoded_items json_loads lines
  end.
Proof.
  unfold decoded_items. simpl. destruct (json_loads (strip l)); reflexivity.
Qed.

Lemma decoded_items_app (l1 l2 : list string) :
  decoded_items json_loads (l1 ++ l2) =
  decoded_items json_loads l1 ++ decoded_items json_loads l2.
Proof.
  unfold decoded_items. apply flat_map_app.
Qed.

Lemma url_seen_grows (url : json) (st st' : merge_state) (more : list json) :
  seen_urls st' = seen_urls st ++ more -> url_seen url st -> url_seen url st'.
Proof.
  intros E [u [Hin Hu]]. exists u. split; [|exact Hu].
  rewrite E. apply in_or_app. left. exact Hin.
Qed.

(** What a run over the lines of one file adds, and what it has read. *)
Lemma process_lines_grow (filename : string) (lines : list string) :
  forall st st' : merge_state,
    process_lines json_loads filename st lines = Ok st' ->
    exists more_seen more_items,
      seen_urls st' = seen_urls st ++ more_seen /\
      unique_items st' = unique_items st ++ more_items /\
      subsequence more_items (decoded_items json_loads lines) /\
      (forall l item,
          In l lines -> json_loads (strip l) = Some item ->
          truthy (url_of item) = true -> url_seen (url_of item) st') /\
      lines_ok json_loads lines.
Proof.
  induction lines as [|l lines IH]; intros st st' H; simpl in H.
  - inversion H; subst. exists [], []. rewrite !app_nil_r.
    repeat split; auto; try constructor; intros; contradiction.
  - destruct (process_line json_loads filename st l) as [m|] eqn:E;
      [|discriminate].
    destruct (IH m st' H) as [ms [mi [Hs [Hu [Hsub [Hseen Hok]]]]]].
    rewrite decoded_items_cons.
    apply process_line_ok in E
      as [[Hl [Es Eu]]|[d [Hl [_ [[Ht [Hh [Hm [Es Eu]]]]|[Hd [Hh ->]]]]]]].
    + (* the line does not decode *)
      rewrite Hl. exists ms, mi. rewrite <- Es, <- Eu.
      repeat split; auto.
      * intros l' item [<-|Hin] Hl' Hturl; [congruence | eauto].
      * intros l' [<-|Hin]; [|auto].
        left. unfold undecodable. rewrite Hl. reflexivity.
    + (* the line is kept *)
      rewrite Hl. exists (dict_get d "url" JNull :: ms), (JDict d :: mi).
      rewrite Hs, Hu, Es, Eu, <- !app_assoc. simpl.
      repeat split; auto.
      * constructor. exact Hsub.
      * intros l' item [<-|Hin] Hl' Hturl; [|eauto].
        rewrite Hl in Hl'. inversion Hl'; subst item. simpl.
        exists (dict_get d "url" JNull). split; [|auto].
        rewrite Hs, Es. apply in_or_app. left. apply in_or_app. right.
        left. reflexivity.
      * intros l' [<-|Hin]; [|auto].
        right. unfold is_record. rewrite Hl, Hh. apply orb_true_r.
    + (* the line is dropped *)
      rewrite Hl. exists ms, mi.
      repeat split; auto.
      * constructor. exact Hsub.
      * intros l' item [<-|Hin] Hl' Hturl; [|eauto].
        rewrite Hl in Hl'. inversion Hl'; subst item. simpl in *.
        destruct Hd as [Hf|Hm]; [congruence|].
        unfold set_mem in Hm. apply existsb_exists in Hm as [u [Hin Hpe]].
        apply (url_seen_grows _ st st' ms Hs).
        exists u. split; [exact Hin | right; exact Hpe].
      * intros l' [<-|Hin]; [|auto].
        right. unfold is_record. rewrite Hl.
        destruct (truthy (dict_get d "url" JNull)); simpl; auto.
Qed.

Lemma process_files_grow (files : list (string * list string)) :
  forall st st' : merge_state,
    process_files json_loads st files = Ok st' ->
    exists more_seen more_items,
      seen_urls st' = seen_urls st ++ more_seen /\
      unique_items st' = unique_items st ++ more_items /\
      subsequence more_items (decoded_items json_loads (all_lines files)) /\
      (forall l item,
          In l (all_lines files) -> json_loads (strip l) = Some item ->
          truthy (url_of item) = true -> url_seen (url_of item) st') /\
      files_ok json_loads files.
Proof.
  induction files as [|[f lines] files IH]; intros st st' H.
  - simpl in H. inversion H; subst. exists [], []. rewrite !app_nil_r.
    repeat split; auto; try constructor; intros; contradiction.
  - simpl in H.
    destruct (process_lines json_loads f st lines) as [m|] eqn:E;
      [|discriminate].
    destruct (process_lines_grow f lines st m E)
      as [ms1 [mi1 [Hs1 [Hu1 [Hsub1 [Hseen1 Hok1]]]]]].
    destruct (IH m st' H) as [ms2 [mi2 [Hs2 [Hu2 [Hsub2 [Hseen2 Hok2]]]]]].
    exists (ms1 ++ ms2), (mi1 ++ mi2).
    unfold all_lines. simpl. fold (all_lines files).
    rewrite decoded_items_app.
    split; [rewrite Hs2, Hs1, app_assoc; reflexivity|].
    split; [rewrite Hu2, Hu1, app_assoc; reflexivity|].
    split; [apply subsequence_app; assumption|].
    split.
    + intros l item Hin Hl Ht. apply in_app_or in Hin as [Hin|Hin].
      * apply (url_seen_grows _ m st' ms2 Hs2). eauto.
      * eauto.
    + intros f' l [<-|Hf] Hl; simpl in *; [apply Hok1; exact Hl|].
      apply (Hok2 f' l Hf Hl).
Qed.

End MergeOrder.

(** X19: when the merge completes, the urls seen are the urls of the items
    kept, one for one and in the same order; every item kept is a mapping
    with a truthy, hashable url; and no url kept equals, as Python compares
    them, one kept before it. *)
Theorem combine_and_dedupe_invariant :
  forall (json_loads : string -> option json)
         (files : list (string * list string)) (st : merge_state),
    combine_and_dedupe json_loads files = Ok st ->
    seen_urls st = map url_of (unique_items st) /\
    Forall kept_item (unique_items st) /\
    no_repeat (seen_urls st).
Proof.
  intros json_loads files st H.
  apply (process_files_invariant json_loads files initial_state st H).
  repeat split; [constructor|].
  intros before u after E. destruct before; discriminate.
Qed.

Lemma combine_and_dedupe_invariant_witness :
  exists st : merge_state,
    combine_and_dedupe sample_loads [sample_file_bad_text] = Ok st /\
    seen_urls st = map url_of (unique_items st).
Proof.
  destruct (combine_and_dedupe sample_loads [sample_file_bad_text])
    as [st|e] eqn:E.
  - exists st. split; [reflexivity|].
    exact (proj1 (combine_and_dedupe_invariant _ _ _ E)).
  - vm_compute in E. discriminate.
Defined.

(** X20: when the merge completes, the items kept are items the lines
    decode to, in reading order: files in the order given, lines in the
    order of each file. *)
Theorem combine_and_dedupe_keeps_order :
  forall (json_loads : string -> option json)
         (files : list (string * list string)) (st : merge_state),
    combine_and_dedupe json_loads files = Ok st ->
    subsequence (unique_items st) (decoded_items json_loads (all_lines files)).
Proof.
  intros json_loads files st H.
  destruct (process_files_grow json_loads files initial_state st H)
    as [ms [mi [_ [Hu [Hsub _]]]]].
  rewrite Hu. exact Hsub.
Qed.

Lemma combine_and_dedupe_keeps_order_witness :
  exists st : merge_state,
    combine_and_dedupe sample_loads [sample_file_bad_text] = Ok st /\
    subsequence (unique_items st)
                (decoded_items sample_loads (all_lines [sample_file_bad_text])).
Proof.
  destruct (combine_and_dedupe sample_loads [sample_file_bad_text])
    as [st|e] eqn:E.
  - exists st. split; [reflexivity|].
    exact (combine_and_dedupe_keeps_order _ _ _ E).
  - vm_compute in E. discriminate.
Defined.

(** X21: when the merge completes, no url is lost: for every line that
    decodes to an item with a truthy url, that url, or one equal to it, is
    among the urls seen at the end. *)
Theorem combine_and_dedupe_sees_every_url :
  forall (json_loads : string -> option json)
         (files : list (string * list string)) (st : merge_state),
    combine_and_dedupe json_loads files = Ok st ->
    forall (l : string) (item : json),
      In l (all_lines files) ->
      json_loads (strip l) = Some item ->
      truthy (url_of item) = true ->
      url_seen (url_of item) st.
Proof.
  intros json_loads files st H.
  destruct (process_files_grow json_loads files initial_state st H)
    as [ms [mi [_ [_ [_ [Hseen _]]]]]].
  exact Hseen.
Qed.

Lemma combine_and_dedupe_sees_every_url_witness :
  exists st : merge_state,
    combine_and_dedupe sample_loads [sample_file_bad_text] = Ok st /\
    url_seen (JInt 2) st.
Proof.
  destruct (combine_and_dedupe sample_loads [sample_file_bad_text])
    as [st|e] eqn:E.
  - exists st. split; [reflexivity|].
    apply (combine_and_dedupe_sees_every_url _ _ _ E
             (line_url "2" ++ nl)%string (JDict [("url", JInt 2)])).
    + right. right. left. reflexivity.
    + reflexivity.
    + reflexivity.
  - vm_compute in E. discriminate.
Defined.

(** X22: how the lines are spread over the files has no part in what is
    kept: the merge of the files and the merge of one file holding all
    their lines in order end with the same error, or with the same urls
    seen and the same items kept. *)
Theorem combine_and_dedupe_one_file :
  forall (json_loads : string -> option json)
         (files : list (string * list string)) (name : string),
    same_outcome (combine_and_dedupe json_loads files)
                 (combine_and_dedupe json_loads [(name, all_lines files)]).
Proof.
  intros json_loads files name. unfold combine_and_dedupe.
  pose proof (process_files_one_file json_loads name files
                initial_state initial_state) as H.
  simpl process_files at 2.
  destruct (process_lines json_loads name initial_state (all_lines files));
    apply H; split; reflexivity.
Qed.

(** X23: the merge completes only if every line either fails to decode or
    decodes to an object whose url is falsy or hashable: one line that
    decodes to anything else stops it. *)
Theorem combine_and_dedupe_completes_only_if :
  forall (json_loads : string -> option json)
         (files : list (string * list string)) (st : merge_state),
    combine_and_dedupe json_loads files = Ok st ->
    files_ok json_loads files.
Proof.
  intros json_loads files st H.
  destruct (process_files_grow json_loads files initial_state st H)
    as [ms [mi [_ [_ [_ [_ Hok]]]]]].
  exact Hok.
Qed.

Lemma combine_and_dedupe_completes_only_if_witness :
  files_ok sample_loads [sample_file_bad_text].
Proof.
  destruct (combine_and_dedupe sample_loads [sample_file_bad_text])
    as [st|e] eqn:E.
  - exact (combine_and_dedupe_completes_only_if _ _ _ E).
  - vm_compute in E. discriminate.
Defined.

(** A hashable value equals itself, unless it is a NaN. *)
Lemma py_eqb_refl (v : json) :
  hashable v = true -> v <> JFloat S754_nan -> py_eqb v v = true.
Proof.
  intros Hh Hn. destruct v as [|b|n|f|s|l|d]; try discriminate.
  - reflexivity.
  - unfold py_eqb. simpl. apply Z.eqb_refl.
  - unfold py_eqb. simpl. apply Z.eqb_refl.
  - destruct f as [z|i| |sg m e]; unfold py_eqb; simpl.
    + reflexivity.
    + apply Bool.eqb_reflx.
    + contradiction Hn. reflexivity.
    + apply Z.eqb_refl.
  - unfold py_eqb. simpl. apply String.eqb_refl.
Qed.

(** X24: a line met again adds nothing.  When the merge of some files
    completes, merging them followed by one more file that holds a single
    line already among theirs ends in the very same state, provided the
    line decodes and its url is not a NaN. *)
Theorem combine_and_dedupe_repeated_line :
  forall (json_loads : string -> option json)
         (files : list (string * list string)) (st : merge_state)
         (name l : string) (item : json),
    combine_and_dedupe json_loads files = Ok st ->
    In l (all_lines files) ->
    json_loads (strip l) = Some item ->
    url_of item <> JFloat S754_nan ->
    combine_and_dedupe json_loads (files ++ [(name, [l])]) = Ok st.
Proof.
  intros json_loads files st name l item H Hin Hl Hnan.
  unfold combine_and_dedupe in *.
  rewrite process_files_app, H. simpl.
  destruct (process_files_grow json_loads files initial_state st H)
    as [ms [mi [_ [_ [_ [Hseen Hok]]]]]].
  assert (Hrec : is_record json_loads l = true).
  { unfold all_lines in Hin. apply in_flat_map in Hin as [f [Hf Hlf]].
    destruct (Hok f l Hf Hlf) as [Hu|Hr]; [|exact Hr].
    unfold undecodable in Hu. rewrite Hl in Hu. discriminate. }
  unfold process_line. unfold is_record in Hrec. rewrite Hl in *.
  destruct item as [| | | | | |d]; try discriminate.
  destruct (truthy (dict_get d "url" JNull)) eqn:Ht; [|reflexivity].
  simpl in Hrec. rewrite Hrec.
  destruct (Hseen l (JDict d) Hin Hl Ht) as [u [Hu Heq]].
  assert (Hm : set_mem (dict_get d "url" JNull) (seen_urls st) = true).
  { unfold set_mem. apply existsb_exists. exists u. split; [exact Hu|].
    destruct Heq as [->|Heq]; [|exact Heq].
    apply py_eqb_refl; assumption. }
  rewrite Hm. reflexivity.
Qed.

Lemma combine_and_dedupe_repeated_line_witness :
  combine_and_dedupe sample_loads
    ([sample_file_bad_text] ++ [("book_batch2.jl", [(line_url "1" ++ nl)%string])])
  = combine_and_dedupe sample_loads [sample_file_bad_text].
Proof.
  destruct (combine_and_dedupe sample_loads [sample_file_bad_text])
    as [st|e] eqn:E.
  - apply (combine_and_dedupe_repeated_line
             sample_loads [sample_file_bad_text] st "book_batch2.jl"
             (line_url "1" ++ nl)%string (JDict [("url", JInt 1)]) E).
    + left. reflexivity.
    + reflexivity.
    + discriminate.
  - vm_compute in E. discriminate.
Defined.
